(** * pyrawr: the ThermoRawFileParser command-line wrapper

    A shallow embedding of [pyrawr.py].  The module wraps one external
    program; everything it does is build an argument vector, launch a
    process, and decode what comes back.  The embedding follows that
    shape:

    - a Python [str] is a Rocq [string] holding the UTF-8 encoding of the
      text, a Python [bytes] is a Rocq [string] holding the raw octets;
      [bytes.decode()] is then UTF-8 validation;
    - the Python built-ins and library functions the module calls
      ([str.split], [str.lower], [str.strip], [repr], [os.path.abspath],
      [os.path.dirname], [os.path.join]) are written out, from CPython's
      definitions for a POSIX host;
    - what lies beyond the process boundary (the launcher, the working
      directory, the temporary directory, the encoding of the locale,
      the Unicode table of the interpreter, [semver.match], [json]) is
      a record [World] that every operation takes as its first
      argument; files hold octets;
    - exceptions are an inductive type [exn], and fallible code lives in
      the error monad [result]. *)

From Stdlib Require Import ZArith NArith Ascii.
From stdpp Require Import gmap strings list fin_maps.

Local Open Scope Z_scope.

(** ** Python built-ins on strings *)

Module Py.

Definition code (c : ascii) : N := N_of_ascii c.

Definition chr (n : N) : string := String (ascii_of_N n) "".

Definition ascii_eqb (a b : ascii) : bool := Ascii.eqb a b.

(** [s.startswith(p)] *)
Fixpoint startswith (p s : string) : bool :=
  match p, s with
  | "", _ => true
  | String a p', String b s' => ascii_eqb a b && startswith p' s'
  | String _ _, "" => false
  end.

(** [c in s] for a one-character [c] *)
Fixpoint contains (c : ascii) (s : string) : bool :=
  match s with
  | "" => false
  | String a s' => ascii_eqb a c || contains c s'
  end.

(** [s.split(sep)] for a one-character separator: never the empty list,
    and adjacent separators give empty fields. *)
Fixpoint split (sep : ascii) (s : string) : list string :=
  match s with
  | "" => [""]
  | String c s' =>
      if ascii_eqb c sep then "" :: split sep s'
      else match split sep s' with
           | [] => [String c ""]
           | w :: ws => String c w :: ws
           end
  end.

(** [sep.join(l)] *)
Fixpoint join (sep : string) (l : list string) : string :=
  match l with
  | [] => ""
  | [x] => x
  | x :: l' => x +:+ sep +:+ join sep l'
  end.

(** [c * n] *)
Fixpoint repeat_char (c : ascii) (n : nat) : string :=
  match n with
  | O => ""
  | S n' => String c (repeat_char c n')
  end.

(** [str.lower()].  Exact on ASCII text; octets of non-ASCII characters
    are left alone.  Python lowers a non-ASCII character to text that
    still has a non-ASCII character in it, or to [k] (the Kelvin sign);
    no key of [formats] has either, so a lookup of a lowered name hits
    here exactly when it hits in Python. *)
Definition lower_char (c : ascii) : ascii :=
  let n := code c in
  if (65 <=? n)%N && (n <=? 90)%N then ascii_of_N (n + 32) else c.

Fixpoint lower (s : string) : string :=
  match s with
  | "" => ""
  | String c s' => String (lower_char c) (lower s')
  end.

(** [name] is [key] in some casing: letter for letter the same, each
    letter of [key], which is in lower case, taken as it is or as its
    capital. *)
Definition same_letter (k c : ascii) : bool :=
  ascii_eqb c k
  || ((97 <=? code k)%N && (code k <=? 122)%N && (code c + 32 =? code k)%N).

Fixpoint is_casing_of (key name : string) : bool :=
  match key, name with
  | "", "" => true
  | String k key', String c name' => same_letter k c && is_casing_of key' name'
  | _, _ => false
  end.

(** White space as [str.strip()] sees it, by UTF-8 encoding length:
    U+0009..000D, U+001C..001F, U+0020; U+0085, U+00A0; U+1680,
    U+2000..200A, U+2028, U+2029, U+202F, U+205F, U+3000. *)
Definition space1 (a : ascii) : bool :=
  let n := code a in
  ((9 <=? n) && (n <=? 13) || (28 <=? n) && (n <=? 32))%N.

Definition space2 (a b : ascii) : bool :=
  ((code a =? 194) && ((code b =? 133) || (code b =? 160)))%N.

Definition space3 (a b c : ascii) : bool :=
  let '(x, y, z) := (code a, code b, code c) in
  ((x =? 225) && (y =? 154) && (z =? 128)
   || (x =? 226) && (y =? 128)
      && ((128 <=? z) && (z <=? 138) || (z =? 168) || (z =? 169) || (z =? 175))
   || (x =? 226) && (y =? 129) && (z =? 159)
   || (x =? 227) && (y =? 128) && (z =? 128))%N.

Section Strip.
(** [fwd] is true when the string is read front to back, false when
    [rstrip] reads its reversal: the octets of one character then
    arrive last octet first. *)
Variable fwd : bool.

Definition sp2 (a b : ascii) : bool :=
  if fwd then space2 a b else space2 b a.
Definition sp3 (a b c : ascii) : bool :=
  if fwd then space3 a b c else space3 c b a.

Fixpoint drop_space (s : string) : string :=
  match s with
  | "" => ""
  | String a r1 =>
      if space1 a then drop_space r1
      else match r1 with
           | "" => s
           | String b r2 =>
               if sp2 a b then drop_space r2
               else match r2 with
                    | "" => s
                    | String c r3 => if sp3 a b c then drop_space r3 else s
                    end
           end
  end.
End Strip.

Definition lstrip (s : string) : string := drop_space true s.
Definition rstrip (s : string) : string :=
  String.rev (drop_space false (String.rev s)).

(** [str.strip()] *)
Definition strip (s : string) : string := rstrip (lstrip s).

(** [s.rstrip(c)] for a one-character [c] *)
Fixpoint drop_char (c : ascii) (s : string) : string :=
  match s with
  | "" => ""
  | String a s' => if ascii_eqb a c then drop_char c s' else s
  end.
Definition rstrip_char (c : ascii) (s : string) : string :=
  String.rev (drop_char c (String.rev s)).

(** Well-formed UTF-8 (no overlong forms, no surrogates, at most
    U+10FFFF), the test behind [bytes.decode()] in strict mode. *)
Definition cont (a : ascii) : bool := ((128 <=? code a) && (code a <=? 191))%N.
Definition between (lo hi : N) (a : ascii) : bool :=
  ((lo <=? code a) && (code a <=? hi))%N.

Fixpoint valid_utf8 (s : string) : bool :=
  match s with
  | "" => true
  | String a r1 =>
      if (code a <=? 127)%N then valid_utf8 r1
      else match r1 with
           | "" => false
           | String b r2 =>
               if between 194 223 a then cont b && valid_utf8 r2
               else match r2 with
                    | "" => false
                    | String c r3 =>
                        if between 224 239 a then
                          (if (code a =? 224)%N then between 160 191 b
                           else if (code a =? 237)%N then between 128 159 b
                           else cont b)
                          && cont c && valid_utf8 r3
                        else match r3 with
                             | "" => false
                             | String d r4 =>
                                 between 240 244 a
                                 && (if (code a =? 240)%N then between 144 191 b
                                     else if (code a =? 244)%N then between 128 143 b
                                     else cont b)
                                 && cont c && cont d && valid_utf8 r4
                             end
                    end
           end
  end.

(** [b.decode()]: [None] stands for [UnicodeDecodeError]. *)
Definition decode (b : string) : option string :=
  if valid_utf8 b then Some b else None.

(** [repr(s)] for a [str].  An ASCII character is escaped or copied as
    CPython does; a character beyond ASCII is copied when the Unicode
    table of the running Python calls it printable and escaped by its
    code point when not.  That table, [printable], is not part of the
    program and comes from outside. *)
Definition hex_digit (n : N) : ascii :=
  if (n <? 10)%N then ascii_of_N (48 + n) else ascii_of_N (87 + n).

(** [n] in [digits] hexadecimal digits, lower case *)
Fixpoint hex (digits : nat) (n : N) : string :=
  match digits with
  | O => ""
  | S d => hex d (n / 16) +:+ String (hex_digit (n mod 16)) ""
  end.

Definition repr_char (q : ascii) (c : ascii) : string :=
  let n := code c in
  if ascii_eqb c q || (n =? 92)%N then String "\" (String c "")
  else if (n =? 9)%N then "\t"
  else if (n =? 10)%N then "\n"
  else if (n =? 13)%N then "\r"
  else if (n <? 32)%N || (n =? 127)%N then
    String "\" (String "x" (String (hex_digit (n / 16)) (String (hex_digit (n mod 16)) "")))
  else String c "".

(** The escape of a non-printable character beyond ASCII *)
Definition escape (cp : N) : string :=
  if (cp <=? 255)%N then "\x" +:+ hex 2 cp
  else if (cp <=? 65535)%N then "\u" +:+ hex 4 cp
  else "\U" +:+ hex 8 cp.

(** The six low bits of a continuation octet *)
Definition low6 (a : ascii) : N := (code a mod 64)%N.

Section Repr.
Variable printable : N → bool.

Definition repr_wide (cp : N) (octets : string) : string :=
  if printable cp then octets else escape cp.

(** The text is well-formed UTF-8; an octet that is not the start of a
    character, which a [str] cannot hold, is copied. *)
Fixpoint repr_body (q : ascii) (s : string) : string :=
  match s with
  | "" => ""
  | String a r1 =>
      if (code a <=? 127)%N then repr_char q a +:+ repr_body q r1
      else
        match r1 with
        | String b r2 =>
            if between 194 223 a then
              repr_wide ((code a mod 32) * 64 + low6 b)
                        (String a (String b ""))
              +:+ repr_body q r2
            else
              match r2 with
              | String c r3 =>
                  if between 224 239 a then
                    repr_wide ((code a mod 16) * 4096 + low6 b * 64 + low6 c)
                              (String a (String b (String c "")))
                    +:+ repr_body q r3
                  else
                    match r3 with
                    | String d r4 =>
                        if between 240 244 a then
                          repr_wide ((code a mod 8) * 262144 + low6 b * 4096
                                     + low6 c * 64 + low6 d)
                                    (String a (String b (String c (String d ""))))
                          +:+ repr_body q r4
                        else String a (repr_body q r1)
                    | "" => String a (repr_body q r1)
                    end
              | "" => String a (repr_body q r1)
              end
        | "" => String a ""
        end
  end.

Definition squote : ascii := "'"%char.
Definition dquote : ascii := "034"%char.

Definition repr (s : string) : string :=
  let q := if contains squote s && negb (contains dquote s) then dquote else squote in
  String q (repr_body q s +:+ String q "").

(** [str(l)] for a list of [str], as an f-string renders it *)
Definition str_list (l : list string) : string :=
  "[" +:+ join ", " (repr <$> l) +:+ "]".

End Repr.

Definition nl : string := String "010"%char "".

End Py.


(** ** [os.path] on a POSIX host ([posixpath]) *)

Module posixpath.

Definition sep : ascii := "/"%char.

(** [isabs(s)]: [s.startswith('/')] *)
Definition isabs (s : string) : bool := Py.startswith "/" s.

Definition endswith_sep (s : string) : bool :=
  Py.startswith "/" (String.rev s).

(** [join(a, b)] with one component [b] *)
Definition join (a b : string) : string :=
  if Py.startswith "/" b then b
  else if decide (a = "") then a +:+ b
  else if endswith_sep a then a +:+ b
  else a +:+ "/" +:+ b.

(** The count [normpath] keeps of leading slashes: two are kept as two,
    three or more collapse to one. *)
Definition initial_slashes (path : string) : nat :=
  if Py.startswith "/" path then
    if Py.startswith "//" path && negb (Py.startswith "///" path) then 2%nat
    else 1%nat
  else 0%nat.

(** One turn of the loop over the components; [new_comps] is in the
    source's order, [append] adds at the end and [pop] removes there. *)
Definition normpath_step (init : nat) (new_comps : list string) (comp : string)
  : list string :=
  if decide (comp = "") then new_comps
  else if decide (comp = ".") then new_comps
  else if (if decide (comp = "..") then false else true)
          || (Nat.eqb init 0 && bool_decide (new_comps = []))
          || bool_decide (last new_comps = Some "..")
       then new_comps ++ [comp]
       else removelast new_comps.

Definition normpath (path : string) : string :=
  if decide (path = "") then "."
  else
    let init := initial_slashes path in
    let comps := foldl (normpath_step init) [] (Py.split sep path) in
    let path' := Py.repeat_char sep init +:+ Py.join "/" comps in
    if decide (path' = "") then "." else path'.

(** [abspath(path)], the working directory made explicit *)
Definition abspath (cwd path : string) : string :=
  normpath (if isabs path then path else join cwd path).

(** [p[:p.rfind('/') + 1]]: the text up to and including the last slash *)
Fixpoint head_of (p : string) : string :=
  match p with
  | "" => ""
  | String c p' =>
      if Py.contains sep p' then String c (head_of p')
      else if Py.ascii_eqb c sep then String c "" else ""
  end.

(** [dirname(p)] *)
Definition dirname (p : string) : string :=
  let head := head_of p in
  if decide (head = "") then head
  else if decide (head = Py.repeat_char sep (String.length head)) then head
  else Py.rstrip_char sep head.

(** [dir] is the directory that holds [path], said without [dirname]:
    [path] is [dir], a slash, and a last component with no slash in it,
    [dir] being absolute and not ending in a slash; or [dir] is the
    root, one slash or two, and [path] is the root and a last component
    with no slash in it. *)
Definition holds (dir path : string) : Prop :=
  ∃ name,
    Py.contains sep name = false
    ∧ (path = dir +:+ "/" +:+ name
       ∧ isabs dir = true ∧ endswith_sep dir = false
       ∨ path = dir +:+ name ∧ (dir = "/" ∨ dir = "//")).


End posixpath.

(** ** Exceptions and results *)

(** The exceptions that can leave the module.  The three classes at the
    bottom of [pyrawr.py] are [ThermoRawFileParserError] (never raised
    itself) and its two subclasses; the others are Python's own.  An
    exception built from another exception keeps it as its argument. *)
Inductive exn : Type :=
  | FileNotFoundError (detail : string)
  | OSError (detail : string)
  | UnicodeDecodeError
  | JSONDecodeError
  | ValueError
  | KeyError (key : string)
  | ThermoRawFileParserInstallationError (arg : exn_arg)
  | ThermoRawFileParserRunError (msg : string)
with exn_arg : Type :=
  | ArgStr (s : string)
  | ArgExn (e : exn).

(** [isinstance(e, ThermoRawFileParserError)] *)
Definition is_ThermoRawFileParserError (e : exn) : bool :=
  match e with
  | ThermoRawFileParserInstallationError _ | ThermoRawFileParserRunError _ => true
  | _ => false
  end.

Inductive result (A : Type) : Type :=
  | Ok (a : A)
  | Raise (e : exn).
Arguments Ok {A} a.
Arguments Raise {A} e.

(** A decoded JSON document.  Numbers keep their literal text. *)
#[warnings="-register-all"]
Inductive json : Type :=
  | JNull
  | JBool (b : bool)
  | JNumber (literal : string)
  | JString (s : string)
  | JArray (items : list json)
  | JObject (members : list (string * json)).

(** ** The world outside the process boundary *)

(** What [subprocess.run(cmd, check=False, capture_output=True)] hands
    back: [subprocess.CompletedProcess]. *)
Record CompletedProcess : Type := {
  returncode : Z;
  stdout : string;
  stderr : string;
}.

(** The outcome of a launch.  A process that ran leaves the file system
    as [files_after]; [NotFound] is [FileNotFoundError], [LaunchFault]
    any other [OSError] of the launcher, and [LaunchRefused] the
    [ValueError] with which [subprocess.run] turns down a command that
    has a NUL character in one of its words. *)
Inductive launch : Type :=
  | Exited (out : CompletedProcess) (files_after : gmap string string)
  | NotFound (detail : string)
  | LaunchFault (detail : string)
  | LaunchRefused.

(** The file system is a map from absolute paths to the octets of the
    files.  [getcwd] is [os.getcwd()], and [mkdtemp] the directory that
    [tempfile.TemporaryDirectory()] makes.  [locale_decode] is the codec
    with which [open] reads a file in text mode, the preferred encoding
    of the locale; [None] is the [UnicodeDecodeError] it raises.
    [isprintable] is the Unicode table behind [repr].
    [semver_match v req] is [semver.match]; [None] is the [ValueError]
    it raises on text that is not a version.  [json_loads] is
    [json.loads]; [None] is [json.JSONDecodeError].  [json_dumps] is the
    text [json.dump] writes: ASCII, [ensure_ascii] being left at its
    default, so the same octets under any codec of a locale. *)
Record World : Type := {
  getcwd : string;
  mkdtemp : string;
  locale_decode : string → option string;
  isprintable : N → bool;
  subprocess_run : gmap string string → list string → launch;
  semver_match : string → string → option bool;
  json_loads : string → option json;
  json_dumps : json → string;
}.

(** ** The object and the monad its methods run in *)

Record ThermoRawFileParser : Type := {
  executable : string;
  docker_image : option string;
  version_requirement : string;
  installed_version : option string;
}.

(** A method sees the object and the file system, may change both, and
    returns or raises.  What was changed before a [raise] stays changed.
    [calls] records every command handed to [subprocess.run], oldest
    first; the program never reads it. *)
Record state : Type := {
  self : ThermoRawFileParser;
  fs : gmap string string;
  calls : list (list string);
}.

Definition with_self (o : ThermoRawFileParser) (s : state) : state :=
  {| self := o; fs := fs s; calls := calls s |}.

Definition with_fs (σ : gmap string string) (s : state) : state :=
  {| self := self s; fs := σ; calls := calls s |}.

Definition with_call (cmd : list string) (s : state) : state :=
  {| self := self s; fs := fs s; calls := calls s ++ [cmd] |}.

Definition M (A : Type) : Type := state → result A * state.

Global Instance M_ret : MRet M := λ A a s, (Ok a, s).

Global Instance M_bind : MBind M := λ A B f m s,
  match m s with
  | (Ok a, s') => f a s'
  | (Raise e, s') => (Raise e, s')
  end.

Definition raise {A} (e : exn) : M A := λ s, (Raise e, s).

Definition get_self : M ThermoRawFileParser := λ s, (Ok (self s), s).

Definition get_fs : M (gmap string string) := λ s, (Ok (fs s), s).

Definition put_fs (σ : gmap string string) : M unit :=
  λ s, (Ok tt, with_fs σ s).

(** [self.installed_version = v] *)
Definition set_installed_version (v : string) : M unit := λ s,
  (Ok tt,
   with_self {| executable := executable (self s);
                docker_image := docker_image (self s);
                version_requirement := version_requirement (self s);
                installed_version := Some v |} s).

(** [b.decode()] *)
Definition decode (b : string) : M string :=
  match Py.decode b with
  | Some t => mret t
  | None => raise UnicodeDecodeError
  end.

(** [try: body finally: cleanup] *)
Definition finally {A} (body : M A) (cleanup : state → state) : M A := λ s,
  let '(r, s') := body s in (r, cleanup s').

Definition under (dir path : string) : bool :=
  Py.startswith (dir +:+ "/") path.

(** [with tempfile.TemporaryDirectory() as tmp_dir: body]: the directory
    and all that is in it are gone when the block is left, on every path. *)
Definition with_TemporaryDirectory {A} (w : World) (body : string → M A) : M A :=
  let tmp_dir := mkdtemp w in
  finally (body tmp_dir)
    (λ s, with_fs (filter (λ kv, under tmp_dir kv.1 = false) (fs s)) s).

(** The state once the directory [dir] has been removed: what the
    [finally] of [with_TemporaryDirectory] does. *)
Definition sweep (dir : string) (s : state) : state :=
  with_fs (filter (λ kv, under dir kv.1 = false) (fs s)) s.
Global Arguments sweep : simpl never.

(** Truth values of [if x:] *)
Definition truthy_str (o : option string) : bool :=
  match o with
  | Some s => if decide (s = "") then false else true
  | None => false
  end.

Definition truthy_list {A} (o : option (list A)) : bool :=
  match o with
  | Some (_ :: _) => true
  | _ => false
  end.

(** ** [class ThermoRawFileParser] *)

Section Methods.
Context (w : World).

(** The [formats] dictionary of [parse] *)
Definition formats : gmap string string :=
  <["mgf" := "0"]> (<["mzml" := "1"]> (<["indexed_mzml" := "2"]>
    (<["parquet" := "3"]> (<["scan_info" := "4"]> ∅)))).

(** [formats[key]] *)
Definition formats_getitem (key : string) : M string :=
  match formats !! key with
  | Some v => mret v
  | None => raise (KeyError key)
  end.

(** The [-v] arguments of [_run_command]: empty unless [files] is a
    non-empty list; otherwise the absolute paths go through a [set],
    their directories through a second [set], and each directory left
    gives one pair.  A [set] is iterated in an order of its own. *)
Definition docker_args (files : option (list string)) : list string :=
  if truthy_list files then
    let file_paths : gset string :=
      list_to_set (posixpath.abspath (getcwd w) <$> default [] files) in
    let file_paths : gset string :=
      list_to_set (posixpath.dirname <$> elements file_paths) in
    flat_map (λ f, ["-v"; f +:+ ":" +:+ f]) (elements file_paths)
  else [].

(** The first half of [_run_command]: the command [cmd] it builds before
    it launches it.  [options] are already strings, so [str(o)] leaves
    them as they are. *)
Definition command (this : ThermoRawFileParser)
    (options : list string) (files : option (list string)) : list string :=
  if truthy_str (docker_image this) then
    ["docker"; "run"]
    ++ docker_args files
    ++ [default "" (docker_image this)]
    ++ Py.split " " (executable this)
    ++ options
  else [executable this] ++ options.

(** [subprocess.run(cmd, check=False, capture_output=True)], with the
    command noted in [calls] *)
Definition run (cmd : list string) : M launch := λ s,
  let s := with_call cmd s in
  match subprocess_run w (fs s) cmd with
  | Exited out σ' => (Ok (Exited out σ'), with_fs σ' s)
  | l => (Ok l, s)
  end.

Definition _run_command (options : list string)
    (files : option (list string)) (check : bool) : M CompletedProcess :=
  this ← get_self;
  let cmd := command this options files in
  l ← run cmd;
  match l with
  | NotFound e =>
      raise (ThermoRawFileParserInstallationError (ArgExn (FileNotFoundError e)))
  | LaunchFault e => raise (OSError e)
  | LaunchRefused => raise ValueError
  | Exited cmd_out _ =>
      if check && negb (returncode cmd_out =? 0) then
        err ← decode (stderr cmd_out);
        raise (ThermoRawFileParserRunError
                 ("Error running command " +:+ Py.str_list (isprintable w) cmd
                  +:+ ":" +:+ Py.nl +:+ err))
      else mret cmd_out
  end.

Definition _validate_install : M unit :=
  cmd_out ← _run_command ["--version"] None true;
  if negb (returncode cmd_out =? 0) then
    err ← decode (stderr cmd_out);
    raise (ThermoRawFileParserInstallationError (ArgStr (Py.strip err)))
  else
    out ← decode (stdout cmd_out);
    set_installed_version (Py.strip out);;
    this ← get_self;
    let installed := default "" (installed_version this) in
    match semver_match w installed (version_requirement this) with
    | None => raise ValueError
    | Some true => mret tt
    | Some false =>
        raise (ThermoRawFileParserInstallationError
                 (ArgStr ("Installed version " +:+ installed
                          +:+ " does not match requirement "
                          +:+ version_requirement this)))
    end.

(** [__init__]: the four assignments, which leave the object as
    [assigned], then the validation.  It starts from the file system
    alone, the object being made here. *)
Definition assigned (executable : string) (docker_image : option string)
  : ThermoRawFileParser :=
  {| executable := executable;
     docker_image := docker_image;
     version_requirement := ">=1.3.3";
     installed_version := None |}.

(** The command of the version probe that [__init__] sets off *)
Definition probe (executable : string) (docker_image : option string)
  : list string :=
  command (assigned executable docker_image) ["--version"] None.

Definition __init__ (executable : string) (docker_image : option string)
    (σ : gmap string string) : result unit * state :=
  _validate_install
    {| self := assigned executable docker_image; fs := σ; calls := [] |}.

(** [ThermoRawFileParser(executable, docker_image)]: the caller gets
    the object only when [__init__] returns. *)
Definition new (executable : string) (docker_image : option string)
    (σ : gmap string string) : result ThermoRawFileParser :=
  match __init__ executable docker_image σ with
  | (Ok _, s) => Ok (self s)
  | (Raise e, _) => Raise e
  end.

Definition parse (input_file : string) (output_format : option string)
    (options : option (list string)) : M unit :=
  let input_file := posixpath.abspath (getcwd w) input_file in
  let cmd_options := ["-i"; input_file] in
  cmd_options ←
    (if truthy_str output_format then
       f ← formats_getitem (Py.lower (default "" output_format));
       mret (cmd_options ++ ["-f"; f])
     else mret cmd_options);
  let cmd_options :=
    if truthy_list options then cmd_options ++ default [] options
    else cmd_options in
  _run_command cmd_options (Some [input_file]) true;;
  mret tt.

(** [with open(path) as f: json.load(f)]: the file is opened, its
    octets are read as text, and the text is parsed. *)
Definition json_load_file (path : string) : M json :=
  σ ← get_fs;
  match σ !! path with
  | None => raise (FileNotFoundError path)
  | Some octets =>
      match locale_decode w octets with
      | None => raise UnicodeDecodeError
      | Some text =>
          match json_loads w text with
          | Some j => mret j
          | None => raise JSONDecodeError
          end
      end
  end.

(** [json.loads(cmd_out.stdout.decode().strip())] *)
Definition json_loads_stdout (cmd_out : CompletedProcess) : M json :=
  out ← decode (stdout cmd_out);
  match json_loads w (Py.strip out) with
  | Some j => mret j
  | None => raise JSONDecodeError
  end.

Definition metadata (input_file : string) : M json :=
  let input_file := posixpath.abspath (getcwd w) input_file in
  with_TemporaryDirectory w (λ tmp_dir,
    let output_file := posixpath.join tmp_dir "meta.json" in
    let cmd_options := ["-i"; input_file; "-c"; output_file; "-m"; "0"] in
    _run_command cmd_options (Some [input_file; output_file]) true;;
    json_load_file output_file).

Definition query (input_file : string) (scans : string)
    (options : option (list string)) : M json :=
  let input_file := posixpath.abspath (getcwd w) input_file in
  let cmd_options := ["query"; "-i"; input_file; "-n"; scans; "-s"] in
  let cmd_options :=
    if truthy_list options then cmd_options ++ default [] options
    else cmd_options in
  cmd_out ← _run_command cmd_options (Some [input_file]) true;
  json_loads_stdout cmd_out.

(** [with open(query_file, 'wt') as f: json.dump(query, f)] *)
Definition json_dump_file (q : json) (path : string) : M unit :=
  σ ← get_fs;
  put_fs (<[path := json_dumps w q]> σ).

Definition xic (input_file : string) (query : json) (base64 : bool) : M json :=
  let input_file := posixpath.abspath (getcwd w) input_file in
  cmd_out ← with_TemporaryDirectory w (λ tmp_dir,
    let query_file := posixpath.join tmp_dir "query.json" in
    json_dump_file query query_file;;
    let cmd_options := ["xic"; "-i"; input_file; "-j"; query_file; "-s"] in
    let cmd_options :=
      if base64 then cmd_options ++ ["--base64"] else cmd_options in
    _run_command cmd_options (Some [input_file; query_file]) true);
  json_loads_stdout cmd_out.

End Methods.

(** ** Concrete worlds *)

(** Worlds to run the methods in.  [semver_ge] compares plain versions
    [X.Y.Z] of decimal numbers under the one operator the module uses,
    [>=], and is [None] on anything else; on such input it answers as
    [semver.match] does. *)
Module Demo.

Definition digit (c : ascii) : option N :=
  let n := Py.code c in
  if (48 <=? n)%N && (n <=? 57)%N then Some (n - 48)%N else None.

Fixpoint number_from (acc : N) (s : string) : option N :=
  match s with
  | "" => Some acc
  | String c s' => d ← digit c; number_from (10 * acc + d)%N s'
  end.

Definition number (s : string) : option N :=
  if decide (s = "") then None else number_from 0 s.

Definition version (s : string) : option (N * N * N) :=
  match Py.split "." s with
  | [a; b; c] =>
      x ← number a; y ← number b; z ← number c; Some (x, y, z)
  | _ => None
  end.

Definition version_leb (u v : N * N * N) : bool :=
  let '(a, b, c) := u in
  let '(x, y, z) := v in
  ((a <? x) || (a =? x) && ((b <? y) || (b =? y) && (c <=? z)))%N.

Definition semver_ge (v req : string) : option bool :=
  match req with
  | String ">" (String "=" r) =>
      u ← version v; m ← version r; Some (version_leb m u)
  | _ => None
  end.

(** A decoder that knows the listed documents and rejects all else. *)
Fixpoint json_table (docs : list (string * json)) (text : string)
  : option json :=
  match docs with
  | [] => None
  | (t, j) :: docs' => if decide (t = text) then Some j else json_table docs' text
  end.

Definition docs : list (string * json) :=
  [("[]", JArray []); ("{}", JObject []); ("null", JNull)].

(** The Unicode table of the concrete worlds: below U+0100 the
    characters that are not printable are the controls U+0080 to U+009F,
    the no-break space and the soft hyphen; beyond, the spaces and
    separators.  The runs below ask it about none. *)
Definition printable (cp : N) : bool :=
  negb ((cp <=? 160) || (cp =? 173) || (cp =? 5760)
        || (8192 <=? cp) && (cp <=? 8202)
        || (cp =? 8232) || (cp =? 8233) || (cp =? 8239) || (cp =? 8287)
        || (cp =? 12288))%N.

(** A host with working directory [/home/user] and a UTF-8 locale whose
    launcher is [run].  Only the empty list is ever dumped in these
    worlds. *)
Definition world (run : gmap string string → list string → launch) : World :=
  {| getcwd := "/home/user";
     mkdtemp := "/tmp/tmpk3v9";
     locale_decode := Py.decode;
     isprintable := printable;
     subprocess_run := run;
     semver_match := semver_ge;
     json_loads := json_table docs;
     json_dumps := λ _, "[]" |}.

(** A tool that prints [out] and [err] and exits with [rc], touching
    no file. *)
Definition exits (rc : Z) (out err : string) : World :=
  world (λ σ _, Exited {| returncode := rc; stdout := out; stderr := err |} σ).

(** The same tool behind a launcher that turns down a command with a
    NUL character in one of its words. *)
Definition has_nul (word : string) : bool := Py.contains "000"%char word.

Definition guarded (rc : Z) (out err : string) : World :=
  world (λ σ cmd,
    if existsb has_nul cmd then LaunchRefused
    else Exited {| returncode := rc; stdout := out; stderr := err |} σ).

(** No program of that name on the host. *)
Definition missing : World :=
  world (λ _ cmd,
    NotFound ("[Errno 2] No such file or directory: "
              +:+ Py.repr printable (default "" (head cmd)))).

(** A tool that writes [text] to the path after [-c], if there is one,
    prints nothing and exits with 0. *)
Fixpoint after_flag (flag : string) (cmd : list string) : option string :=
  match cmd with
  | a :: ((b :: _) as rest) =>
      if decide (a = flag) then Some b else after_flag flag rest
  | _ => None
  end.

Definition writes (text : string) : World :=
  world (λ σ cmd,
    Exited {| returncode := 0; stdout := ""; stderr := "" |}
      (match after_flag "-c" cmd with
       | Some path => <[path := text]> σ
       | None => σ
       end)).

(** An installed object, as [__init__] leaves it on success. *)
Definition installed (exe : string) (img : option string) : state :=
  {| self := {| executable := exe;
                docker_image := img;
                version_requirement := ">=1.3.3";
                installed_version := Some "1.3.3" |};
     fs := ∅;
     calls := [] |}.

End Demo.

(** * Properties *)

(** ** The built-ins, at values CPython gives *)

Example split_keeps_empty_fields :
  Py.split " " "mono  ThermoRawFileParser.exe"
  = ["mono"; ""; "ThermoRawFileParser.exe"]
  ∧ Py.split " " "thermorawfileparser" = ["thermorawfileparser"]
  ∧ Py.split " " "" = [""].
Proof. by vm_compute. Qed.

Example strip_takes_both_ends :
  Py.strip (" 1.3.3" +:+ Py.nl) = "1.3.3"
  ∧ Py.strip ("1.3.3 rc" +:+ Py.chr 194 +:+ Py.chr 160) = "1.3.3 rc".
Proof. by vm_compute. Qed.

Example decode_rejects_stray_bytes :
  Py.decode "boom" = Some "boom"
  ∧ Py.decode (Py.chr 195 +:+ Py.chr 169) = Some (Py.chr 195 +:+ Py.chr 169)
  ∧ Py.decode (Py.chr 255) = None
  ∧ Py.decode (Py.chr 192 +:+ Py.chr 128) = None.
Proof. by vm_compute. Qed.

Example str_list_quotes :
  Py.str_list Demo.printable ["docker"; "run"; "it's"]
  = "['docker', 'run', " +:+ Py.chr 34 +:+ "it's" +:+ Py.chr 34 +:+ "]".
Proof. by vm_compute. Qed.

Example repr_escapes_by_code_point :
  Py.repr Demo.printable (Py.chr 195 +:+ Py.chr 169)
  = "'" +:+ Py.chr 195 +:+ Py.chr 169 +:+ "'"
  ∧ Py.repr Demo.printable ("a" +:+ Py.chr 194 +:+ Py.chr 160 +:+ "b") = "'a\xa0b'"
  ∧ Py.repr Demo.printable (Py.chr 226 +:+ Py.chr 128 +:+ Py.chr 168) = "'\u2028'"
  ∧ Py.repr Demo.printable (Py.chr 127 +:+ "\") = "'\x7f\\'".
Proof. by vm_compute. Qed.

Example abspath_normalises :
  posixpath.abspath "/home/user" "run1/../run2/./a.raw" = "/home/user/run2/a.raw"
  ∧ posixpath.abspath "/home/user" "/data//a.raw" = "/data/a.raw"
  ∧ posixpath.abspath "/home/user" "//data/a.raw" = "//data/a.raw"
  ∧ posixpath.abspath "/home/user" "../../../a.raw" = "/a.raw"
  ∧ posixpath.abspath "/home/user" "" = "/home/user".
Proof. by vm_compute. Qed.

Example holds_tells_directory_from_file :
  posixpath.holds "/home/user/run1" "/home/user/run1/a.raw"
  ∧ posixpath.holds "/" "/a.raw"
  ∧ ¬ posixpath.holds "/home/user/run1/a.raw" "/home/user/run1/a.raw"
  ∧ ¬ posixpath.holds "/home/user" "/home/user/run1/a.raw".
Proof.
  split; [|split; [|split]].
  - exists "a.raw". split; [done|]. by left.
  - exists "a.raw". split; [done|]. right. by split; [|left].
  - intros (name & _ & [(Heq & _) | (_ & [Hd | Hd])]); [|done..].
    vm_compute in Heq. congruence.
  - intros (name & Hname & [(Heq & _) | (_ & [Hd | Hd])]); [|done..].
    vm_compute in Heq. injection Heq as <-. by vm_compute in Hname.
Qed.

Example dirname_of_paths :
  posixpath.dirname "/home/user/a.raw" = "/home/user"
  ∧ posixpath.dirname "/a.raw" = "/"
  ∧ posixpath.dirname "/data//a.raw" = "/data"
  ∧ posixpath.dirname "a.raw" = "".
Proof. by vm_compute. Qed.

Section Properties.
Context (w : World).

(** ** The executor *)

(** [_run_command] with its monad unfolded: the launch is recorded,
    then the outcome decides. *)
Lemma _run_command_unfold options files check s :
  _run_command w options files check s =
  let cmd := command w (self s) options files in
  let s1 := with_call cmd s in
  match subprocess_run w (fs s) cmd with
  | NotFound e =>
      (Raise (ThermoRawFileParserInstallationError (ArgExn (FileNotFoundError e))), s1)
  | LaunchFault e => (Raise (OSError e), s1)
  | LaunchRefused => (Raise ValueError, s1)
  | Exited out σ' =>
      let s2 := with_fs σ' s1 in
      if check && negb (returncode out =? 0) then
        match Py.decode (stderr out) with
        | Some err =>
            (Raise (ThermoRawFileParserRunError
                      ("Error running command " +:+ Py.str_list (isprintable w) cmd +:+ ":"
                       +:+ Py.nl +:+ err)), s2)
        | None => (Raise UnicodeDecodeError, s2)
        end
      else (Ok out, s2)
  end.
Proof.
  unfold _run_command, run, get_self, mbind, M_bind. simpl.
  destruct (subprocess_run w (fs s) _) as [out σ'|e|e|]; simpl; try reflexivity.
  destruct (check && negb (returncode out =? 0)); simpl; try reflexivity.
  unfold decode. destruct (Py.decode (stderr out)); reflexivity.
Qed.

(** Every call of [_run_command] hands exactly one command to the
    launcher, whatever comes of it. *)
Lemma _run_command_calls options files check s :
  calls (_run_command w options files check s).2
  = calls s ++ [command w (self s) options files].
Proof.
  rewrite _run_command_unfold. simpl.
  destruct (subprocess_run w (fs s) _) as [out σ'|e|e|]; try reflexivity.
  destruct (check && negb (returncode out =? 0)); try reflexivity.
  destruct (Py.decode (stderr out)); reflexivity.
Qed.

(** [_run_command] never touches the object. *)
Lemma _run_command_self options files check s :
  self (_run_command w options files check s).2 = self s.
Proof.
  rewrite _run_command_unfold. simpl.
  destruct (subprocess_run w (fs s) _) as [out σ'|e|e|]; try reflexivity.
  destruct (check && negb (returncode out =? 0)); try reflexivity.
  destruct (Py.decode (stderr out)); reflexivity.
Qed.

(** A zero exit passes through [_run_command], strict or not. *)
Lemma _run_command_zero options files check s out σ' :
  subprocess_run w (fs s) (command w (self s) options files) = Exited out σ' →
  returncode out = 0 →
  _run_command w options files check s
  = (Ok out, with_fs σ' (with_call (command w (self s) options files) s)).
Proof.
  intros Hrun Hrc. rewrite _run_command_unfold. simpl. rewrite Hrun, Hrc.
  simpl. by rewrite andb_false_r.
Qed.

(** In direct mode the command is the executable, as one word, and the
    options. *)
Lemma command_direct this options files :
  truthy_str (docker_image this) = false →
  command w this options files = executable this :: options.
Proof. intros H. unfold command. by rewrite H. Qed.

Lemma split_one_word sep word :
  Py.contains sep word = false → Py.split sep word = [word].
Proof.
  induction word as [|c word IH]; simpl; [done|].
  intros [Hc Hword]%orb_false_iff. rewrite Hc. by rewrite IH.
Qed.

(** So the direct command is the tokens of the template and the options
    exactly when the template is a single word. *)
Lemma command_direct_one_word this options files :
  truthy_str (docker_image this) = false →
  Py.contains " " (executable this) = false →
  command w this options files = Py.split " " (executable this) ++ options.
Proof.
  intros Himg Hword. rewrite command_direct by done.
  by rewrite split_one_word.
Qed.

(** [_run_command] on a process that ran.  Under strict checking a
    non-zero exit raises [ThermoRawFileParserRunError] whose message is
    the fixed prefix, the rendered command, a colon and newline, and the
    decoded standard error, when the captured octets decode as UTF-8;
    when they do not, the message is never finished and the decoding
    fault leaves in its place.  Without strict checking the outcome of
    the process is returned as it is. *)
Lemma _run_command_check options files s out σ' :
  subprocess_run w (fs s) (command w (self s) options files) = Exited out σ' →
  (returncode out ≠ 0 →
     ∀ err, Py.decode (stderr out) = Some err →
     (_run_command w options files true s).1
     = Raise (ThermoRawFileParserRunError
                ("Error running command "
                 +:+ Py.str_list (isprintable w) (command w (self s) options files)
                 +:+ ":" +:+ Py.nl +:+ err)))
  ∧ (returncode out ≠ 0 →
     Py.decode (stderr out) = None →
     (_run_command w options files true s).1 = Raise UnicodeDecodeError)
  ∧ (_run_command w options files false s).1 = Ok out.
Proof.
  intros Hrun. rewrite !_run_command_unfold. simpl. rewrite Hrun. simpl.
  split; [|split; [|done]].
  - intros Hrc err Herr. apply Z.eqb_neq in Hrc. by rewrite Hrc, Herr.
  - intros Hrc Herr. apply Z.eqb_neq in Hrc. by rewrite Hrc, Herr.
Qed.

(** ** The installation validator *)

Lemma _validate_install_unfold s :
  _validate_install w s =
  match _run_command w ["--version"] None true s with
  | (Raise e, s') => (Raise e, s')
  | (Ok cmd_out, s') =>
      if negb (returncode cmd_out =? 0) then
        match Py.decode (stderr cmd_out) with
        | Some err =>
            (Raise (ThermoRawFileParserInstallationError (ArgStr (Py.strip err))), s')
        | None => (Raise UnicodeDecodeError, s')
        end
      else
        match Py.decode (stdout cmd_out) with
        | None => (Raise UnicodeDecodeError, s')
        | Some out =>
            let v := Py.strip out in
            let req := version_requirement (self s') in
            let s'' :=
              with_self {| executable := executable (self s');
                           docker_image := docker_image (self s');
                           version_requirement := req;
                           installed_version := Some v |} s' in
            match semver_match w v req with
            | None => (Raise ValueError, s'')
            | Some true => (Ok tt, s'')
            | Some false =>
                (Raise (ThermoRawFileParserInstallationError
                          (ArgStr ("Installed version " +:+ v
                                   +:+ " does not match requirement " +:+ req))),
                 s'')
            end
        end
  end.
Proof.
  unfold _validate_install, mbind, M_bind.
  destruct (_run_command w ["--version"] None true s) as [[cmd_out|e] s']; [|done].
  destruct (negb (returncode cmd_out =? 0)).
  - unfold decode. by destruct (Py.decode (stderr cmd_out)).
  - unfold decode. destruct (Py.decode (stdout cmd_out)) as [out|]; [|done].
    simpl. by destruct (semver_match w (Py.strip out) _) as [[]|].
Qed.

(** A probe that exits with zero and prints decodable text: what is
    left is the comparison of the versions. *)
Lemma __init___probe_ok exe img σ out σ' text :
  subprocess_run w σ (probe w exe img) = Exited out σ' →
  returncode out = 0 →
  Py.decode (stdout out) = Some text →
  __init__ w exe img σ =
  let v := Py.strip text in
  let s :=
    {| self := {| executable := exe;
                  docker_image := img;
                  version_requirement := ">=1.3.3";
                  installed_version := Some v |};
       fs := σ';
       calls := [probe w exe img] |} in
  match semver_match w v ">=1.3.3" with
  | None => (Raise ValueError, s)
  | Some true => (Ok tt, s)
  | Some false =>
      (Raise (ThermoRawFileParserInstallationError
                (ArgStr ("Installed version " +:+ v
                         +:+ " does not match requirement >=1.3.3"))), s)
  end.
Proof.
  intros Hrun Hrc Htext. unfold __init__.
  rewrite _validate_install_unfold.
  rewrite (_run_command_zero _ _ _ _ out σ') by done.
  rewrite Hrc, Htext. simpl.
  by destruct (semver_match w (Py.strip text) ">=1.3.3") as [[]|].
Qed.

(** A probe that exits with anything but zero never reaches the test of
    the return code in [_validate_install]: [_run_command], called with
    its default [check=True], has raised before. *)
Lemma __init___probe_nonzero exe img σ out σ' :
  subprocess_run w σ (probe w exe img) = Exited out σ' →
  returncode out ≠ 0 →
  (__init__ w exe img σ).1 =
  match Py.decode (stderr out) with
  | Some err =>
      Raise (ThermoRawFileParserRunError
               ("Error running command " +:+ Py.str_list (isprintable w) (probe w exe img)
                +:+ ":" +:+ Py.nl +:+ err))
  | None => Raise UnicodeDecodeError
  end.
Proof.
  intros Hrun Hrc. unfold __init__.
  rewrite _validate_install_unfold, _run_command_unfold. simpl.
  unfold probe in Hrun. rewrite Hrun. simpl.
  apply Z.eqb_neq in Hrc. rewrite Hrc. simpl.
  by destruct (Py.decode (stderr out)).
Qed.

(** C6: a probe that succeeds with trimmed output [1.3.2] makes
    construction fail with [ThermoRawFileParserInstallationError], the
    comparator saying that 1.3.2 does not satisfy [>=1.3.3]; with
    trimmed output [1.3.3], which it says does, construction succeeds
    and the object's [installed_version] is [1.3.3]. *)
Theorem version_gate exe img σ out σ' text :
  subprocess_run w σ (probe w exe img) = Exited out σ' →
  returncode out = 0 →
  Py.decode (stdout out) = Some text →
  (Py.strip text = "1.3.2" →
   semver_match w "1.3.2" ">=1.3.3" = Some false →
   new w exe img σ
   = Raise (ThermoRawFileParserInstallationError
              (ArgStr "Installed version 1.3.2 does not match requirement >=1.3.3")))
  ∧ (Py.strip text = "1.3.3" →
     semver_match w "1.3.3" ">=1.3.3" = Some true →
     ∃ this, new w exe img σ = Ok this
             ∧ installed_version this = Some "1.3.3"
             ∧ executable this = exe ∧ docker_image this = img).
Proof.
  intros Hrun Hrc Htext. unfold new.
  rewrite (__init___probe_ok _ _ _ out σ' text) by done. simpl.
  split; intros -> ->; [done|]. eexists. by repeat split.
Qed.

(** C8: when the launcher cannot find the command of the probe,
    construction raises [ThermoRawFileParserInstallationError] holding
    the [FileNotFoundError] of the launcher; the fault itself does not
    leave. *)
Theorem missing_command_is_InstallationError exe img σ detail :
  subprocess_run w σ (probe w exe img) = NotFound detail →
  new w exe img σ
  = Raise (ThermoRawFileParserInstallationError
             (ArgExn (FileNotFoundError detail))).
Proof.
  intros Hrun. unfold new, __init__.
  rewrite _validate_install_unfold, _run_command_unfold. simpl.
  unfold probe in Hrun. by rewrite Hrun.
Qed.

(** C9: when the probe exits with zero and the version it reports does
    not satisfy the requirement, [__init__] raises
    [ThermoRawFileParserInstallationError] with [installed_version]
    already holding the reported version, not the [None] it was
    assigned first. *)
Theorem failed_gate_keeps_version exe img σ out σ' text :
  subprocess_run w σ (probe w exe img) = Exited out σ' →
  returncode out = 0 →
  Py.decode (stdout out) = Some text →
  semver_match w (Py.strip text) ">=1.3.3" = Some false →
  installed_version (assigned exe img) = None
  ∧ (∃ arg, (__init__ w exe img σ).1
            = Raise (ThermoRawFileParserInstallationError arg))
  ∧ installed_version (self (__init__ w exe img σ).2) = Some (Py.strip text).
Proof.
  intros Hrun Hrc Htext Hver.
  rewrite (__init___probe_ok _ _ _ out σ' text) by done. simpl.
  rewrite Hver. simpl. split; [done|]. split; [by eexists|done].
Qed.

(** ** The command under a container image *)

(** The directories [docker_args] mounts: each once, and exactly the
    parent directories of the absolute paths of [files]. *)
Lemma docker_args_mounts files :
  ∃ ds : list string,
    NoDup ds
    ∧ (∀ d, d ∈ ds ↔
            ∃ f, f ∈ default [] files
                 ∧ d = posixpath.dirname (posixpath.abspath (getcwd w) f))
    ∧ docker_args w files = flat_map (λ d, ["-v"; d +:+ ":" +:+ d]) ds.
Proof.
  unfold docker_args. destruct (truthy_list files) eqn:Hfiles.
  - set (paths := list_to_set (posixpath.abspath (getcwd w) <$> default [] files)
                  : gset string).
    set (dirs := list_to_set (posixpath.dirname <$> elements paths) : gset string).
    exists (elements dirs). split; [apply NoDup_elements|]. split; [|reflexivity].
    intros d. unfold dirs, paths. rewrite elem_of_elements, elem_of_list_to_set, list_elem_of_fmap.
    split.
    + intros (p & -> & Hp).
      rewrite elem_of_elements, elem_of_list_to_set, list_elem_of_fmap in Hp.
      destruct Hp as (f & -> & Hf). eauto.
    + intros (f & Hf & ->). eexists. split; [reflexivity|].
      rewrite elem_of_elements, elem_of_list_to_set, list_elem_of_fmap. eauto.
  - exists []. split; [constructor|]. split; [|reflexivity].
    intros d. split; [by intros ?%elem_of_nil|].
    intros (f & Hf & _). destruct files as [[|]|]; simpl in *;
      try discriminate; by apply elem_of_nil in Hf.
Qed.

(** ** The result decoder *)

(** C3, as amended: when the process exits with zero and what it left
    cannot be decoded, the fault of the decoder itself reaches the
    caller, neither swallowed nor turned into
    [ThermoRawFileParserRunError]: for [metadata] a
    [FileNotFoundError] when the output file is absent, a
    [UnicodeDecodeError] when its octets are not text in the encoding
    of the locale, and a [JSONDecodeError] when they are text that is
    not JSON; for [query] and [xic] a [JSONDecodeError] when standard
    output, decoded and stripped, is not JSON. *)
Theorem decode_failure_propagates input s :
  let abs := posixpath.abspath (getcwd w) input in
  (∀ out σ',
     let output_file := posixpath.join (mkdtemp w) "meta.json" in
     subprocess_run w (fs s)
       (command w (self s) ["-i"; abs; "-c"; output_file; "-m"; "0"]
          (Some [abs; output_file])) = Exited out σ' →
     returncode out = 0 →
     (σ' !! output_file = None →
      (metadata w input s).1 = Raise (FileNotFoundError output_file))
     ∧ (∀ octets, σ' !! output_file = Some octets →
                  locale_decode w octets = None →
                  (metadata w input s).1 = Raise UnicodeDecodeError)
     ∧ (∀ octets text, σ' !! output_file = Some octets →
                       locale_decode w octets = Some text →
                       json_loads w text = None →
                       (metadata w input s).1 = Raise JSONDecodeError))
  ∧ (∀ scans options out σ' text,
       subprocess_run w (fs s)
         (command w (self s)
            (["query"; "-i"; abs; "-n"; scans; "-s"]
             ++ (if truthy_list options then default [] options else []))
            (Some [abs])) = Exited out σ' →
       returncode out = 0 →
       Py.decode (stdout out) = Some text →
       json_loads w (Py.strip text) = None →
       (query w input scans options s).1 = Raise JSONDecodeError)
  ∧ (∀ (q : json) (base64 : bool) out σ' text,
       let query_file := posixpath.join (mkdtemp w) "query.json" in
       subprocess_run w (<[query_file := json_dumps w q]> (fs s))
         (command w (self s)
            (["xic"; "-i"; abs; "-j"; query_file; "-s"]
             ++ (if base64 then ["--base64"] else []))
            (Some [abs; query_file])) = Exited out σ' →
       returncode out = 0 →
       Py.decode (stdout out) = Some text →
       json_loads w (Py.strip text) = None →
       (xic w input q base64 s).1 = Raise JSONDecodeError).
Proof.
  intros abs. split; [|split].
  - intros out σ' output_file Hrun Hrc.
    unfold metadata, with_TemporaryDirectory, finally, mbind, M_bind.
    fold abs. fold output_file.
    rewrite (_run_command_zero _ _ _ _ out σ') by done.
    unfold json_load_file, get_fs, mbind, M_bind. simpl.
    split; [|split].
    + by intros ->.
    + by intros octets -> ->.
    + by intros octets text -> -> ->.
  - intros scans options out σ' text Hrun Hrc Htext Hjson.
    unfold query, mbind, M_bind. fold abs.
    assert ((if truthy_list options
             then ["query"; "-i"; abs; "-n"; scans; "-s"] ++ default [] options
             else ["query"; "-i"; abs; "-n"; scans; "-s"])
            = ["query"; "-i"; abs; "-n"; scans; "-s"]
              ++ (if truthy_list options then default [] options else []))
      as -> by by destruct (truthy_list options).
    rewrite (_run_command_zero _ _ _ _ out σ') by done.
    unfold json_loads_stdout, decode, mbind, M_bind.
    rewrite Htext. simpl. by rewrite Hjson.
  - intros q base64 out σ' text query_file Hrun Hrc Htext Hjson.
    unfold xic, with_TemporaryDirectory, finally, mbind, M_bind.
    fold abs. fold query_file.
    unfold json_dump_file, get_fs, put_fs, mbind, M_bind.
    assert ((if base64
             then ["xic"; "-i"; abs; "-j"; query_file; "-s"] ++ ["--base64"]
             else ["xic"; "-i"; abs; "-j"; query_file; "-s"])
            = ["xic"; "-i"; abs; "-j"; query_file; "-s"]
              ++ (if base64 then ["--base64"] else []))
      as -> by by destruct base64.
    rewrite (_run_command_zero _ _ _ _ out σ') by done.
    unfold json_loads_stdout, decode, mbind, M_bind.
    rewrite Htext. simpl. by rewrite Hjson.
Qed.

(** ** The command builder *)

Lemma append_cons c a b : String c a +:+ b = String c (a +:+ b).
Proof. reflexivity. Qed.

Lemma isabs_app a b :
  posixpath.isabs a = true → posixpath.isabs (a +:+ b) = true.
Proof. destruct a as [|c a]; [done|]. by rewrite append_cons. Qed.

Lemma normpath_isabs p :
  posixpath.isabs p = true → posixpath.isabs (posixpath.normpath p) = true.
Proof.
  intros Hp. unfold posixpath.normpath.
  destruct (decide (p = "")) as [->|_]; [done|].
  unfold posixpath.initial_slashes. unfold posixpath.isabs in Hp. rewrite Hp.
  destruct (Py.startswith "//" p && negb (Py.startswith "///" p)); simpl;
    by rewrite append_cons.
Qed.

(** [abspath] gives an absolute path, the working directory being one. *)
Lemma abspath_isabs p :
  posixpath.isabs (getcwd w) = true →
  posixpath.isabs (posixpath.abspath (getcwd w) p) = true.
Proof.
  intros Hcwd. unfold posixpath.abspath. apply normpath_isabs.
  destruct (posixpath.isabs p) eqn:Hp; [done|].
  unfold posixpath.join. unfold posixpath.isabs in Hp. rewrite Hp.
  destruct (decide (getcwd w = "")) as [He|_]; [by rewrite He in Hcwd|].
  destruct (posixpath.endswith_sep _); by apply isabs_app.
Qed.

Lemma lower_char_casing k c :
  Py.same_letter k c = true → Py.lower_char k = k → Py.lower_char c = k.
Proof.
  unfold Py.same_letter. intros H Hk.
  apply orb_true_iff in H as [H|H].
  - apply Ascii.eqb_eq in H. by subst.
  - apply andb_true_iff in H as [Hlow H]. apply N.eqb_eq in H.
    assert (c = ascii_of_N (Py.code k - 32)) as ->.
    { rewrite <- (ascii_N_embedding c). f_equal. unfold Py.code in *. lia. }
    clear H Hk. revert Hlow.
    destruct k as [[] [] [] [] [] [] [] []]; vm_compute; congruence.
Qed.

Lemma casing_lower_char c : Py.same_letter (Py.lower_char c) c = true.
Proof. destruct c as [[] [] [] [] [] [] [] []]; by vm_compute. Qed.

(** A casing of a key in lower case lowers to the key, *)
Lemma lower_casing key name :
  Py.is_casing_of key name = true → Py.lower key = key → Py.lower name = key.
Proof.
  revert name. induction key as [|k key IH]; intros [|c name]; simpl; try done.
  intros [Hc Hrest]%andb_true_iff Hkey. injection Hkey as Hk Hkey.
  f_equal; [by apply lower_char_casing|by apply IH].
Qed.

(** and what lowers to a key is a casing of it. *)
Lemma casing_lower name : Py.is_casing_of (Py.lower name) name = true.
Proof.
  induction name as [|c name IH]; simpl; [done|].
  by rewrite casing_lower_char, IH.
Qed.

Lemma formats_miss key :
  key ∉ ["mgf"; "mzml"; "indexed_mzml"; "parquet"; "scan_info"] →
  formats !! key = None.
Proof.
  intros H. unfold formats.
  rewrite !lookup_insert_ne; [apply lookup_empty|..];
    intros <-; apply H; set_solver.
Qed.

Lemma parse_unfold input fmt options s :
  parse w input fmt options s =
  let abs := posixpath.abspath (getcwd w) input in
  let rest := if truthy_list options then default [] options else [] in
  if truthy_str fmt then
    match formats !! Py.lower (default "" fmt) with
    | None => (Raise (KeyError (Py.lower (default "" fmt))), s)
    | Some f =>
        (_run_command w (["-i"; abs; "-f"; f] ++ rest) (Some [abs]) true;;
         mret tt) s
    end
  else (_run_command w (["-i"; abs] ++ rest) (Some [abs]) true;; mret tt) s.
Proof.
  unfold parse, formats_getitem, mbind, M_bind. simpl.
  destruct (truthy_str fmt).
  - destruct (formats !! _); [|done]. simpl.
    by destruct (truthy_list options).
  - simpl. by destruct (truthy_list options).
Qed.

(** C10: [parse] lowers the name of the output format before it looks
    up the code.  A name that is one of [mgf], [mzml], [indexed_mzml],
    [parquet], [scan_info] in any casing goes on to the executor with
    [-f] and the code 0 to 4 of that format; any other name that is not
    empty raises [KeyError] with nothing launched and nothing
    changed. *)
Theorem parse_output_format input name options s :
  name ≠ "" →
  let abs := posixpath.abspath (getcwd w) input in
  let rest := if truthy_list options then default [] options else [] in
  let table := [("mgf", "0"); ("mzml", "1"); ("indexed_mzml", "2");
                ("parquet", "3"); ("scan_info", "4")] in
  (∀ key code,
     (key, code) ∈ table →
     Py.is_casing_of key name = true →
     parse w input (Some name) options s
     = (_run_command w (["-i"; abs; "-f"; code] ++ rest) (Some [abs]) true;;
        mret tt) s)
  ∧ ((∀ key code, (key, code) ∈ table → Py.is_casing_of key name = false) →
     ∃ key, parse w input (Some name) options s = (Raise (KeyError key), s)).
Proof.
  intros Hname abs rest table.
  assert (truthy_str (Some name) = true) as Htruthy.
  { simpl. by destruct (decide (name = "")). }
  split.
  - intros key code Hin Hcase. rewrite parse_unfold, Htruthy. simpl.
    fold abs. fold rest.
    assert (Py.lower name = key ∧ formats !! key = Some code) as [-> ->]; [|done].
    unfold table in Hin. rewrite !elem_of_cons in Hin.
    destruct Hin as [Hin|[Hin|[Hin|[Hin|[Hin|Hin]]]]];
      [..|by apply elem_of_nil in Hin];
      injection Hin as -> ->; (split; [by apply lower_casing|by vm_compute]).
  - intros Hother. rewrite parse_unfold, Htruthy. simpl.
    rewrite formats_miss; [by eexists|].
    intros Hin. rewrite !elem_of_cons in Hin.
    pose proof (casing_lower name) as Hcase.
    destruct Hin as [Hin|[Hin|[Hin|[Hin|[Hin|Hin]]]]];
      [..|by apply elem_of_nil in Hin];
      rewrite Hin in Hcase;
      [rewrite (Hother "mgf" "0") in Hcase
      |rewrite (Hother "mzml" "1") in Hcase
      |rewrite (Hother "indexed_mzml" "2") in Hcase
      |rewrite (Hother "parquet" "3") in Hcase
      |rewrite (Hother "scan_info" "4") in Hcase];
      try discriminate; unfold table; set_solver.
Qed.


End Properties.

(** * Concrete runs *)

(** C5: a tool that exits with 1 and writes the single octet 0xFF to
    standard error, called under strict checking.  The code has reached
    its [raise ThermoRawFileParserRunError], but the octet is not UTF-8:
    [decode] raises while the message is being built, and what leaves
    is [UnicodeDecodeError], no run error.  Without strict checking the
    same outcome is returned as it is. *)
Theorem undecodable_stderr_hides_RunError :
  let w := Demo.exits 1 "" (Py.chr 255) in
  let s := Demo.installed "thermorawfileparser" None in
  (_run_command w ["--version"] None true s).1 = Raise UnicodeDecodeError
  ∧ (∀ msg, (_run_command w ["--version"] None true s).1
            ≠ Raise (ThermoRawFileParserRunError msg))
  ∧ (_run_command w ["--version"] None false s).1
    = Ok {| returncode := 1; stdout := ""; stderr := Py.chr 255 |}.
Proof.
  split; [by vm_compute|]. split; [|by vm_compute].
  intros msg. vm_compute. discriminate.
Qed.

(** [_run_command_check] at a tool that exits with 1 and writes [boom]
    to standard error. *)
Lemma _run_command_check_witness :
  let w := Demo.exits 1 "" "boom" in
  let s := Demo.installed "thermorawfileparser" None in
  (_run_command w ["--version"] None true s).1
  = Raise (ThermoRawFileParserRunError
             ("Error running command ['thermorawfileparser', '--version']:"
              +:+ Py.nl +:+ "boom"))
  ∧ (_run_command w ["--version"] None false s).1
    = Ok {| returncode := 1; stdout := ""; stderr := "boom" |}.
Proof.
  intros w s.
  destruct (_run_command_check w ["--version"] None s
              {| returncode := 1; stdout := ""; stderr := "boom" |} ∅ eq_refl)
    as (Hstrict & _ & Hloose).
  split; [|exact Hloose].
  apply (Hstrict ltac:(done) "boom" eq_refl).
Defined.

(** C1: a tool whose version probe exits with 1 and writes [boom] to
    standard error.  Construction ends in
    [ThermoRawFileParserRunError], raised by [_run_command] under its
    default [check=True]; the [ThermoRawFileParserInstallationError] that
    [_validate_install] would raise on a non-zero return code is never
    reached. *)
Theorem probe_nonzero_exit_raises_RunError :
  (__init__ (Demo.exits 1 "" "boom") "thermorawfileparser" None ∅).1
  = Raise (ThermoRawFileParserRunError
             ("Error running command ['thermorawfileparser', '--version']:"
              +:+ Py.nl +:+ "boom"))
  ∧ new (Demo.exits 1 "" "boom") "thermorawfileparser" None ∅
    ≠ Raise (ThermoRawFileParserInstallationError (ArgStr "boom")).
Proof. split; [by vm_compute|]. vm_compute. discriminate. Qed.

(** C2: the executable [mono ThermoRawFileParser.exe] of the class's own
    documentation, in direct mode.  The launcher is handed the template
    as a single word, which is not the template split into its two
    tokens followed by the options. *)
Theorem direct_mode_keeps_template_whole :
  let s := Demo.installed "mono ThermoRawFileParser.exe" None in
  calls (_run_command (Demo.exits 0 "" "") ["--version"] None true s).2
  = [["mono ThermoRawFileParser.exe"; "--version"]]
  ∧ Py.split " " "mono ThermoRawFileParser.exe" ++ ["--version"]
    = ["mono"; "ThermoRawFileParser.exe"; "--version"]
  ∧ calls (_run_command (Demo.exits 0 "" "") ["--version"] None true s).2
    ≠ [Py.split " " "mono ThermoRawFileParser.exe" ++ ["--version"]].
Proof. split; [by vm_compute|]. split; [by vm_compute|]. vm_compute. discriminate. Qed.

(** C6, at tools that print [1.3.2] and [1.3.3] and exit with zero. *)
Lemma version_gate_witness :
  new (Demo.exits 0 ("1.3.2" +:+ Py.nl) "") "thermorawfileparser" None ∅
  = Raise (ThermoRawFileParserInstallationError
             (ArgStr "Installed version 1.3.2 does not match requirement >=1.3.3"))
  ∧ ∃ this,
      new (Demo.exits 0 ("1.3.3" +:+ Py.nl) "") "thermorawfileparser" None ∅ = Ok this
      ∧ installed_version this = Some "1.3.3"
      ∧ executable this = "thermorawfileparser" ∧ docker_image this = None.
Proof.
  split.
  - apply (version_gate (Demo.exits 0 ("1.3.2" +:+ Py.nl) "")
             "thermorawfileparser" None ∅
             {| returncode := 0; stdout := "1.3.2" +:+ Py.nl; stderr := "" |} ∅
             ("1.3.2" +:+ Py.nl)); reflexivity.
  - apply (version_gate (Demo.exits 0 ("1.3.3" +:+ Py.nl) "")
             "thermorawfileparser" None ∅
             {| returncode := 0; stdout := "1.3.3" +:+ Py.nl; stderr := "" |} ∅
             ("1.3.3" +:+ Py.nl)); reflexivity.
Defined.

(** C8, on a host without the program. *)
Lemma missing_command_is_InstallationError_witness :
  new Demo.missing "thermorawfileparser" None ∅
  = Raise (ThermoRawFileParserInstallationError
             (ArgExn (FileNotFoundError
                "[Errno 2] No such file or directory: 'thermorawfileparser'"))).
Proof.
  apply (missing_command_is_InstallationError Demo.missing
           "thermorawfileparser" None ∅). reflexivity.
Defined.

(** C9, at a tool that reports version 1.2.0. *)
Lemma failed_gate_keeps_version_witness :
  let w := Demo.exits 0 (" 1.2.0" +:+ Py.nl) "" in
  installed_version (assigned "thermorawfileparser" None) = None
  ∧ (∃ arg, (__init__ w "thermorawfileparser" None ∅).1
            = Raise (ThermoRawFileParserInstallationError arg))
  ∧ installed_version (self (__init__ w "thermorawfileparser" None ∅).2)
    = Some "1.2.0".
Proof.
  intros w.
  apply (failed_gate_keeps_version w "thermorawfileparser" None ∅
           {| returncode := 0; stdout := " 1.2.0" +:+ Py.nl; stderr := "" |} ∅
           (" 1.2.0" +:+ Py.nl)); reflexivity.
Defined.

(** C3, counterexample: a tool that exits with zero and prints [oops].
    [query] ends in the [JSONDecodeError] of [json.loads], which is not a
    [ThermoRawFileParserRunError]; and when the tool leaves no output
    file, [metadata] ends in the [FileNotFoundError] of [open]. *)
Lemma decode_failure_is_not_RunError :
  ¬ (∀ (w : World) input scans options s out σ' text,
       subprocess_run w (fs s)
         (command w (self s)
            (["query"; "-i"; posixpath.abspath (getcwd w) input; "-n"; scans; "-s"]
             ++ (if truthy_list options then default [] options else []))
            (Some [posixpath.abspath (getcwd w) input])) = Exited out σ' →
       returncode out = 0 →
       Py.decode (stdout out) = Some text →
       json_loads w (Py.strip text) = None →
       ∃ msg, (query w input scans options s).1
              = Raise (ThermoRawFileParserRunError msg))
  ∧ (metadata (Demo.exits 0 "" "") "run1.raw"
       (Demo.installed "thermorawfileparser" None)).1
    = Raise (FileNotFoundError "/tmp/tmpk3v9/meta.json").
Proof.
  split; [|by vm_compute].
  intros H.
  destruct (H (Demo.exits 0 "oops" "") "run1.raw" "508,680" None
              (Demo.installed "thermorawfileparser" None)
              _ _ "oops" eq_refl eq_refl eq_refl eq_refl) as [msg Hmsg].
  vm_compute in Hmsg. discriminate.
Qed.

(** C3 as amended, at tools that exit with zero and leave no output
    file, one that holds the octet 0xFF, a truncated one, and text on
    standard output that is not JSON. *)
Lemma decode_failure_propagates_witness :
  let s := Demo.installed "thermorawfileparser" None in
  (metadata (Demo.exits 0 "" "") "run1.raw" s).1
  = Raise (FileNotFoundError "/tmp/tmpk3v9/meta.json")
  ∧ (metadata (Demo.writes (Py.chr 255)) "run1.raw" s).1 = Raise UnicodeDecodeError
  ∧ (metadata (Demo.writes "{") "run1.raw" s).1 = Raise JSONDecodeError
  ∧ (query (Demo.exits 0 "oops" "") "run1.raw" "508,680" None s).1
    = Raise JSONDecodeError
  ∧ (xic (Demo.exits 0 "oops" "") "run1.raw" (JArray []) false s).1
    = Raise JSONDecodeError.
Proof.
  intros s. split; [|split; [|split; [|split]]].
  - destruct (decode_failure_propagates (Demo.exits 0 "" "") "run1.raw" s)
      as (Hmeta & _ & _).
    destruct (Hmeta {| returncode := 0; stdout := ""; stderr := "" |} ∅
                eq_refl eq_refl) as (Habsent & _ & _).
    apply Habsent. reflexivity.
  - destruct (decode_failure_propagates (Demo.writes (Py.chr 255)) "run1.raw" s)
      as (Hmeta & _ & _).
    destruct (Hmeta {| returncode := 0; stdout := ""; stderr := "" |}
                (<["/tmp/tmpk3v9/meta.json" := Py.chr 255]> ∅)
                eq_refl eq_refl) as (_ & Hoctets & _).
    apply (Hoctets (Py.chr 255)); reflexivity.
  - destruct (decode_failure_propagates (Demo.writes "{") "run1.raw" s)
      as (Hmeta & _ & _).
    destruct (Hmeta {| returncode := 0; stdout := ""; stderr := "" |}
                (<["/tmp/tmpk3v9/meta.json" := "{"]> ∅)
                eq_refl eq_refl) as (_ & _ & Hbad).
    apply (Hbad "{" "{"); reflexivity.
  - destruct (decode_failure_propagates (Demo.exits 0 "oops" "") "run1.raw" s)
      as (_ & Hquery & _).
    apply (Hquery "508,680" None
             {| returncode := 0; stdout := "oops"; stderr := "" |} ∅ "oops");
      reflexivity.
  - destruct (decode_failure_propagates (Demo.exits 0 "oops" "") "run1.raw" s)
      as (_ & _ & Hxic).
    apply (Hxic (JArray []) false
             {| returncode := 0; stdout := "oops"; stderr := "" |}
             (<["/tmp/tmpk3v9/query.json" := "[]"]> ∅) "oops");
      reflexivity.
Defined.


(** C10, at a mixed-case name and at a name of no format. *)
Lemma parse_output_format_witness :
  let w := Demo.exits 0 "" "" in
  let s := Demo.installed "thermorawfileparser" None in
  parse w "run1.raw" (Some "MzML") (Some ["-g"]) s
  = (_run_command w ["-i"; "/home/user/run1.raw"; "-f"; "1"; "-g"]
       (Some ["/home/user/run1.raw"]) true;; mret tt) s
  ∧ ∃ key,
      parse w "run1.raw" (Some "csv") (Some ["-g"]) s = (Raise (KeyError key), s).
Proof.
  intros w s.
  destruct (parse_output_format w "run1.raw" "MzML" (Some ["-g"]) s)
    as [Hknown _]; [discriminate|].
  destruct (parse_output_format w "run1.raw" "csv" (Some ["-g"]) s)
    as [_ Hother]; [discriminate|].
  split.
  - apply (Hknown "mzml" "1"); [|reflexivity].
    apply list_elem_of_In. simpl. tauto.
  - apply Hother. intros key code Hin.
    apply list_elem_of_In in Hin. simpl in Hin.
    destruct Hin as [Hin|[Hin|[Hin|[Hin|[Hin|[]]]]]];
      injection Hin as <- <-; reflexivity.
Defined.

(** * Further properties of the operations *)

Section Operations.
Context (w : World).

(** ** The operations with the monad unfolded *)

Lemma metadata_unfold input s :
  metadata w input s =
  let abs := posixpath.abspath (getcwd w) input in
  let output_file := posixpath.join (mkdtemp w) "meta.json" in
  match _run_command w ["-i"; abs; "-c"; output_file; "-m"; "0"]
          (Some [abs; output_file]) true s with
  | (Raise e, s') => (Raise e, sweep (mkdtemp w) s')
  | (Ok _, s') =>
      match fs s' !! output_file with
      | None => (Raise (FileNotFoundError output_file), sweep (mkdtemp w) s')
      | Some octets =>
          match locale_decode w octets with
          | None => (Raise UnicodeDecodeError, sweep (mkdtemp w) s')
          | Some text =>
              match json_loads w text with
              | Some j => (Ok j, sweep (mkdtemp w) s')
              | None => (Raise JSONDecodeError, sweep (mkdtemp w) s')
              end
          end
      end
  end.
Proof.
  unfold metadata, with_TemporaryDirectory, finally, mbind, M_bind.
  destruct (_run_command w _ _ _ s) as [[out|e] s']; [|done].
  unfold json_load_file, get_fs, mbind, M_bind. simpl.
  destruct (fs s' !! _) as [octets|]; [|done].
  destruct (locale_decode w octets) as [text|]; [|done].
  by destruct (json_loads w text).
Qed.

Lemma json_loads_stdout_unfold out s :
  json_loads_stdout w out s =
  match Py.decode (stdout out) with
  | None => (Raise UnicodeDecodeError, s)
  | Some text =>
      match json_loads w (Py.strip text) with
      | Some j => (Ok j, s)
      | None => (Raise JSONDecodeError, s)
      end
  end.
Proof.
  unfold json_loads_stdout, decode, mbind, M_bind.
  destruct (Py.decode (stdout out)) as [text|]; [|done]. simpl.
  by destruct (json_loads w (Py.strip text)).
Qed.

Lemma query_unfold input scans options s :
  query w input scans options s =
  let abs := posixpath.abspath (getcwd w) input in
  let rest := if truthy_list options then default [] options else [] in
  match _run_command w (["query"; "-i"; abs; "-n"; scans; "-s"] ++ rest)
          (Some [abs]) true s with
  | (Raise e, s') => (Raise e, s')
  | (Ok out, s') => json_loads_stdout w out s'
  end.
Proof.
  unfold query, mbind, M_bind. cbv zeta.
  assert ((if truthy_list options
           then ["query"; "-i"; posixpath.abspath (getcwd w) input; "-n"; scans; "-s"]
                ++ default [] options
           else ["query"; "-i"; posixpath.abspath (getcwd w) input; "-n"; scans; "-s"])
          = ["query"; "-i"; posixpath.abspath (getcwd w) input; "-n"; scans; "-s"]
            ++ (if truthy_list options then default [] options else []))
    as -> by by destruct (truthy_list options).
  by destruct (_run_command w _ _ _ s) as [[out|e] s'].
Qed.

Lemma xic_unfold input (q : json) (base64 : bool) s :
  xic w input q base64 s =
  let abs := posixpath.abspath (getcwd w) input in
  let query_file := posixpath.join (mkdtemp w) "query.json" in
  let rest := if base64 then ["--base64"] else [] in
  match _run_command w (["xic"; "-i"; abs; "-j"; query_file; "-s"] ++ rest)
          (Some [abs; query_file]) true
          (with_fs (<[query_file := json_dumps w q]> (fs s)) s) with
  | (Raise e, s') => (Raise e, sweep (mkdtemp w) s')
  | (Ok out, s') => json_loads_stdout w out (sweep (mkdtemp w) s')
  end.
Proof.
  unfold xic, with_TemporaryDirectory, finally, mbind, M_bind.
  unfold json_dump_file, get_fs, put_fs, mbind, M_bind. cbv zeta.
  assert ((if base64
           then ["xic"; "-i"; posixpath.abspath (getcwd w) input; "-j";
                 posixpath.join (mkdtemp w) "query.json"; "-s"] ++ ["--base64"]
           else ["xic"; "-i"; posixpath.abspath (getcwd w) input; "-j";
                 posixpath.join (mkdtemp w) "query.json"; "-s"])
          = ["xic"; "-i"; posixpath.abspath (getcwd w) input; "-j";
             posixpath.join (mkdtemp w) "query.json"; "-s"]
            ++ (if base64 then ["--base64"] else []))
    as -> by by destruct base64.
  by destruct (_run_command w _ _ _ _) as [[out|e] s'].
Qed.

Lemma json_loads_stdout_state out s : (json_loads_stdout w out s).2 = s.
Proof.
  rewrite json_loads_stdout_unfold.
  destruct (Py.decode (stdout out)) as [text|]; [|done].
  by destruct (json_loads w (Py.strip text)).
Qed.

Lemma filter_under_lookup (σ : gmap string string) path :
  filter (λ kv, under (mkdtemp w) kv.1 = false) σ !! path
  = if under (mkdtemp w) path then None else σ !! path.
Proof.
  rewrite map_lookup_filter.
  destruct (σ !! path) as [text|] eqn:Hpath; simpl.
  - destruct (under (mkdtemp w) path) eqn:Hunder.
    + rewrite option_guard_False; [done|]. simpl. congruence.
    + by rewrite option_guard_True.
  - by destruct (under (mkdtemp w) path).
Qed.

Lemma sweep_lookup s path :
  fs (sweep (mkdtemp w) s) !! path
  = if under (mkdtemp w) path then None else fs s !! path.
Proof. apply filter_under_lookup. Qed.

(** ** Temporary files *)

(** X1: whatever comes of [metadata] and of [xic] (a result, a failed
    launch, a non-zero exit, a decoding fault), no file under the
    temporary directory is left when they are done. *)
Theorem temporary_files_are_removed input (q : json) (base64 : bool) s path :
  under (mkdtemp w) path = true →
  fs (metadata w input s).2 !! path = None
  ∧ fs (xic w input q base64 s).2 !! path = None.
Proof.
  intros Hunder. split.
  - rewrite metadata_unfold. cbv zeta.
    destruct (_run_command w _ _ _ s) as [[out|e] s'].
    + destruct (fs s' !! _) as [octets|];
        [destruct (locale_decode w octets) as [text|];
         [destruct (json_loads w text)|]|];
        cbn [snd]; by rewrite sweep_lookup, Hunder.
    + cbn [snd]. by rewrite sweep_lookup, Hunder.
  - rewrite xic_unfold. cbv zeta.
    destruct (_run_command w _ _ _ _) as [[out|e] s'].
    + rewrite json_loads_stdout_state. by rewrite sweep_lookup, Hunder.
    + cbn [snd]. by rewrite sweep_lookup, Hunder.
Qed.

(** The command an operation hands to the launcher, read off [calls]. *)
Lemma metadata_calls input s :
  calls (metadata w input s).2
  = calls s ++ [command w (self s)
                  ["-i"; posixpath.abspath (getcwd w) input; "-c";
                   posixpath.join (mkdtemp w) "meta.json"; "-m"; "0"]
                  (Some [posixpath.abspath (getcwd w) input;
                         posixpath.join (mkdtemp w) "meta.json"])].
Proof.
  rewrite metadata_unfold. cbv zeta.
  pose proof (_run_command_calls w
                ["-i"; posixpath.abspath (getcwd w) input; "-c";
                 posixpath.join (mkdtemp w) "meta.json"; "-m"; "0"]
                (Some [posixpath.abspath (getcwd w) input;
                       posixpath.join (mkdtemp w) "meta.json"]) true s) as Hcalls.
  destruct (_run_command w _ _ _ s) as [[out|e] s']; [|done].
  destruct (fs s' !! _) as [octets|]; [|done].
  destruct (locale_decode w octets) as [text|]; [|done].
  by destruct (json_loads w text).
Qed.

Lemma query_calls input scans options s :
  calls (query w input scans options s).2
  = calls s ++ [command w (self s)
                  (["query"; "-i"; posixpath.abspath (getcwd w) input;
                    "-n"; scans; "-s"]
                   ++ (if truthy_list options then default [] options else []))
                  (Some [posixpath.abspath (getcwd w) input])].
Proof.
  rewrite query_unfold. cbv zeta.
  pose proof (_run_command_calls w
                (["query"; "-i"; posixpath.abspath (getcwd w) input;
                  "-n"; scans; "-s"]
                 ++ (if truthy_list options then default [] options else []))
                (Some [posixpath.abspath (getcwd w) input]) true s) as Hcalls.
  destruct (_run_command w _ _ _ s) as [[out|e] s']; [|done].
  by rewrite json_loads_stdout_state.
Qed.

Lemma xic_calls input (q : json) (base64 : bool) s :
  calls (xic w input q base64 s).2
  = calls s ++ [command w (self s)
                  (["xic"; "-i"; posixpath.abspath (getcwd w) input; "-j";
                    posixpath.join (mkdtemp w) "query.json"; "-s"]
                   ++ (if base64 then ["--base64"] else []))
                  (Some [posixpath.abspath (getcwd w) input;
                         posixpath.join (mkdtemp w) "query.json"])].
Proof.
  rewrite xic_unfold. cbv zeta.
  pose proof (_run_command_calls w
                (["xic"; "-i"; posixpath.abspath (getcwd w) input; "-j";
                  posixpath.join (mkdtemp w) "query.json"; "-s"]
                 ++ (if base64 then ["--base64"] else []))
                (Some [posixpath.abspath (getcwd w) input;
                       posixpath.join (mkdtemp w) "query.json"]) true
                (with_fs (<[posixpath.join (mkdtemp w) "query.json"
                            := json_dumps w q]> (fs s)) s)) as Hcalls.
  destruct (_run_command w _ _ _ _) as [[out|e] s']; [|done].
  by rewrite json_loads_stdout_state.
Qed.

(** ** The object after construction *)

(** X2: none of [parse], [metadata], [query], [xic] assigns to the
    object: its four attributes are after the call what they were
    before, whatever the call returned or raised. *)
Theorem operations_leave_object_alone input fmt options scans
    (q : json) (base64 : bool) s :
  self (parse w input fmt options s).2 = self s
  ∧ self (metadata w input s).2 = self s
  ∧ self (query w input scans options s).2 = self s
  ∧ self (xic w input q base64 s).2 = self s.
Proof.
  split; [|split; [|split]].
  - rewrite parse_unfold. cbv zeta.
    destruct (truthy_str fmt); [destruct (formats !! _) as [f|]; [|done]|];
      unfold mbind, M_bind;
      match goal with
      | |- context [_run_command w ?o ?f true s] =>
          pose proof (_run_command_self w o f true s) as Hself;
          by destruct (_run_command w o f true s) as [[out|e] s']
      end.
  - rewrite metadata_unfold. cbv zeta.
    match goal with
    | |- context [_run_command w ?o ?f true s] =>
        pose proof (_run_command_self w o f true s) as Hself;
        destruct (_run_command w o f true s) as [[out|e] s']
    end; [|done].
    destruct (fs s' !! _) as [octets|]; [|done].
    destruct (locale_decode w octets) as [text|]; [|done].
    by destruct (json_loads w text).
  - rewrite query_unfold. cbv zeta.
    match goal with
    | |- context [_run_command w ?o ?f true s] =>
        pose proof (_run_command_self w o f true s) as Hself;
        destruct (_run_command w o f true s) as [[out|e] s']
    end; [|done].
    by rewrite json_loads_stdout_state.
  - rewrite xic_unfold. cbv zeta.
    match goal with
    | |- context [_run_command w ?o ?f true ?s0] =>
        pose proof (_run_command_self w o f true s0) as Hself;
        destruct (_run_command w o f true s0) as [[out|e] s']
    end; [|done].
    by rewrite json_loads_stdout_state.
Qed.

(** ** Construction, case by case *)

Lemma new_cases exe img σ :
  new w exe img σ =
  match subprocess_run w σ (probe w exe img) with
  | NotFound d =>
      Raise (ThermoRawFileParserInstallationError (ArgExn (FileNotFoundError d)))
  | LaunchFault d => Raise (OSError d)
  | LaunchRefused => Raise ValueError
  | Exited out _ =>
      if returncode out =? 0 then
        match Py.decode (stdout out) with
        | None => Raise UnicodeDecodeError
        | Some text =>
            match semver_match w (Py.strip text) ">=1.3.3" with
            | None => Raise ValueError
            | Some true =>
                Ok {| executable := exe;
                      docker_image := img;
                      version_requirement := ">=1.3.3";
                      installed_version := Some (Py.strip text) |}
            | Some false =>
                Raise (ThermoRawFileParserInstallationError
                         (ArgStr ("Installed version " +:+ Py.strip text
                                  +:+ " does not match requirement >=1.3.3")))
            end
        end
      else
        match Py.decode (stderr out) with
        | Some err =>
            Raise (ThermoRawFileParserRunError
                     ("Error running command " +:+ Py.str_list (isprintable w) (probe w exe img)
                      +:+ ":" +:+ Py.nl +:+ err))
        | None => Raise UnicodeDecodeError
        end
  end.
Proof.
  destruct (subprocess_run w σ (probe w exe img)) as [out σ'|d|d|] eqn:Hrun.
  - destruct (returncode out =? 0) eqn:Hrc.
    + apply Z.eqb_eq in Hrc. unfold new.
      destruct (Py.decode (stdout out)) as [text|] eqn:Htext.
      * rewrite (__init___probe_ok w _ _ _ out σ' text) by done. cbv zeta.
        by destruct (semver_match w (Py.strip text) ">=1.3.3") as [[]|].
      * unfold __init__. rewrite _validate_install_unfold.
        rewrite (_run_command_zero w _ _ _ _ out σ') by done.
        by rewrite Hrc, Htext.
    + apply Z.eqb_neq in Hrc. unfold new.
      pose proof (__init___probe_nonzero w exe img σ out σ' Hrun Hrc) as Hinit.
      destruct (__init__ w exe img σ) as [[[]|e] s]; simpl in Hinit;
        destruct (Py.decode (stderr out)); by simplify_eq.
  - unfold new, __init__.
    rewrite _validate_install_unfold, _run_command_unfold. simpl.
    unfold probe in Hrun. by rewrite Hrun.
  - unfold new, __init__.
    rewrite _validate_install_unfold, _run_command_unfold. simpl.
    unfold probe in Hrun. by rewrite Hrun.
  - unfold new, __init__.
    rewrite _validate_install_unfold, _run_command_unfold. simpl.
    unfold probe in Hrun. by rewrite Hrun.
Qed.

(** X3: an object exists only if the tool passed the gate.  When
    construction returns an object, the probe ran and exited with zero,
    its output decoded, the comparator accepted the trimmed output
    against [>=1.3.3], and the object holds the arguments it was given,
    that requirement, and that trimmed output as its installed version. *)
Theorem constructed_object_passed_gate exe img σ this :
  new w exe img σ = Ok this →
  ∃ out σ' text,
    subprocess_run w σ (probe w exe img) = Exited out σ'
    ∧ returncode out = 0
    ∧ Py.decode (stdout out) = Some text
    ∧ semver_match w (Py.strip text) ">=1.3.3" = Some true
    ∧ this = {| executable := exe;
                docker_image := img;
                version_requirement := ">=1.3.3";
                installed_version := Some (Py.strip text) |}.
Proof.
  rewrite new_cases.
  destruct (subprocess_run w σ (probe w exe img)) as [out σ'|d|d|]; [|done..].
  destruct (returncode out =? 0) eqn:Hrc;
    [|destruct (Py.decode (stderr out)); intros [=]].
  apply Z.eqb_eq in Hrc.
  destruct (Py.decode (stdout out)) as [text|] eqn:Htext; [|done].
  destruct (semver_match w (Py.strip text) ">=1.3.3") as [[]|] eqn:Hver; [|done..].
  intros [= <-]. by exists out, σ', text.
Qed.

(** X4: what a failed construction tells.  Each exception that leaves
    the constructor has one cause: an installation error holding a
    [FileNotFoundError] means the launcher did not find the command; one
    holding a message means the probe succeeded and the version was
    refused; a run error means the probe exited with a non-zero code; an
    [OSError] is the launcher's own; a decoding fault comes from output
    of the probe that is not UTF-8; a [ValueError] comes either from
    the launcher, which turns down a command with a NUL character in
    it, or from the comparator, given a version it cannot read.  No
    [KeyError], [JSONDecodeError] or bare [FileNotFoundError] ever
    leaves it. *)
Theorem construction_failure_causes exe img σ e :
  new w exe img σ = Raise e →
  match e with
  | ThermoRawFileParserInstallationError (ArgExn (FileNotFoundError d)) =>
      subprocess_run w σ (probe w exe img) = NotFound d
  | ThermoRawFileParserInstallationError (ArgExn _) => False
  | ThermoRawFileParserInstallationError (ArgStr msg) =>
      ∃ out σ' text,
        subprocess_run w σ (probe w exe img) = Exited out σ'
        ∧ returncode out = 0
        ∧ Py.decode (stdout out) = Some text
        ∧ semver_match w (Py.strip text) ">=1.3.3" = Some false
        ∧ msg = "Installed version " +:+ Py.strip text
                +:+ " does not match requirement >=1.3.3"
  | ThermoRawFileParserRunError msg =>
      ∃ out σ' err,
        subprocess_run w σ (probe w exe img) = Exited out σ'
        ∧ returncode out ≠ 0
        ∧ Py.decode (stderr out) = Some err
        ∧ msg = "Error running command " +:+ Py.str_list (isprintable w) (probe w exe img)
                +:+ ":" +:+ Py.nl +:+ err
  | OSError d => subprocess_run w σ (probe w exe img) = LaunchFault d
  | UnicodeDecodeError =>
      ∃ out σ',
        subprocess_run w σ (probe w exe img) = Exited out σ'
        ∧ (returncode out ≠ 0 ∧ Py.decode (stderr out) = None
           ∨ returncode out = 0 ∧ Py.decode (stdout out) = None)
  | ValueError =>
      subprocess_run w σ (probe w exe img) = LaunchRefused
      ∨ ∃ out σ' text,
          subprocess_run w σ (probe w exe img) = Exited out σ'
          ∧ returncode out = 0
          ∧ Py.decode (stdout out) = Some text
          ∧ semver_match w (Py.strip text) ">=1.3.3" = None
  | FileNotFoundError _ | KeyError _ | JSONDecodeError => False
  end.
Proof.
  rewrite new_cases.
  destruct (subprocess_run w σ (probe w exe img)) as [out σ'|d|d|];
    [|by intros [= <-]..|intros [= <-]; by left].
  destruct (returncode out =? 0) eqn:Hrc.
  - apply Z.eqb_eq in Hrc.
    destruct (Py.decode (stdout out)) as [text|] eqn:Htext.
    + destruct (semver_match w (Py.strip text) ">=1.3.3") as [[]|] eqn:Hver;
        [done|..]; intros [= <-]; [|right]; by exists out, σ', text.
    + intros [= <-]. exists out, σ'. split; [done|]. by right.
  - apply Z.eqb_neq in Hrc.
    destruct (Py.decode (stderr out)) as [err|] eqn:Herr; intros [= <-].
    + by exists out, σ', err.
    + exists out, σ'. split; [done|]. by left.
Qed.

(** ** Failures of the process, seen from the operations *)

Lemma _run_command_nonzero options files s out σ' err :
  subprocess_run w (fs s) (command w (self s) options files) = Exited out σ' →
  returncode out ≠ 0 →
  Py.decode (stderr out) = Some err →
  _run_command w options files true s
  = (Raise (ThermoRawFileParserRunError
              ("Error running command "
               +:+ Py.str_list (isprintable w) (command w (self s) options files)
               +:+ ":" +:+ Py.nl +:+ err)),
     with_fs σ' (with_call (command w (self s) options files) s)).
Proof.
  intros Hrun Hrc Herr. rewrite _run_command_unfold. cbv zeta.
  rewrite Hrun. apply Z.eqb_neq in Hrc. by rewrite Hrc, Herr.
Qed.

Lemma _run_command_not_found options files check s d :
  subprocess_run w (fs s) (command w (self s) options files) = NotFound d →
  _run_command w options files check s
  = (Raise (ThermoRawFileParserInstallationError (ArgExn (FileNotFoundError d))),
     with_call (command w (self s) options files) s).
Proof. intros Hrun. rewrite _run_command_unfold. cbv zeta. by rewrite Hrun. Qed.

Lemma parse_calls input fmt options s cmd :
  calls (parse w input fmt options s).2 = calls s ++ [cmd] →
  ∃ args,
    cmd = command w (self s) args (Some [posixpath.abspath (getcwd w) input])
    ∧ parse w input fmt options s
      = (_run_command w args (Some [posixpath.abspath (getcwd w) input]) true;;
         mret tt) s.
Proof.
  rewrite parse_unfold. cbv zeta.
  destruct (truthy_str fmt); [destruct (formats !! _) as [f|]|].
  - intros Hcalls. eexists. split; [|reflexivity].
    revert Hcalls. unfold mbind, M_bind.
    match goal with
    | |- context [_run_command w ?o ?f true s] =>
        pose proof (_run_command_calls w o f true s) as Hc;
        destruct (_run_command w o f true s) as [[out|e] s']
    end; simpl in *; rewrite Hc; by intros [= <-]%(inj (app (calls s))).
  - simpl. intros Hcalls. apply (f_equal length) in Hcalls.
    rewrite length_app in Hcalls. simpl in Hcalls. lia.
  - intros Hcalls. eexists. split; [|reflexivity].
    revert Hcalls. unfold mbind, M_bind.
    match goal with
    | |- context [_run_command w ?o ?f true s] =>
        pose proof (_run_command_calls w o f true s) as Hc;
        destruct (_run_command w o f true s) as [[out|e] s']
    end; simpl in *; rewrite Hc; by intros [= <-]%(inj (app (calls s))).
Qed.

(** X5: a tool that exits with a non-zero code stops every operation
    with [ThermoRawFileParserRunError], whose message names the command
    handed to the launcher and carries the decoded standard error.
    Nothing is decoded after that: [metadata] does not look for its
    output file, [query] and [xic] do not read standard output. *)
Theorem nonzero_exit_stops_operations input fmt options scans
    (q : json) (base64 : bool) s cmd out σ' err :
  returncode out ≠ 0 →
  Py.decode (stderr out) = Some err →
  let msg := "Error running command " +:+ Py.str_list (isprintable w) cmd +:+ ":"
             +:+ Py.nl +:+ err in
  (calls (parse w input fmt options s).2 = calls s ++ [cmd] →
   subprocess_run w (fs s) cmd = Exited out σ' →
   (parse w input fmt options s).1 = Raise (ThermoRawFileParserRunError msg))
  ∧ (calls (metadata w input s).2 = calls s ++ [cmd] →
     subprocess_run w (fs s) cmd = Exited out σ' →
     (metadata w input s).1 = Raise (ThermoRawFileParserRunError msg))
  ∧ (calls (query w input scans options s).2 = calls s ++ [cmd] →
     subprocess_run w (fs s) cmd = Exited out σ' →
     (query w input scans options s).1 = Raise (ThermoRawFileParserRunError msg))
  ∧ (calls (xic w input q base64 s).2 = calls s ++ [cmd] →
     subprocess_run w
       (<[posixpath.join (mkdtemp w) "query.json" := json_dumps w q]> (fs s))
       cmd = Exited out σ' →
     (xic w input q base64 s).1 = Raise (ThermoRawFileParserRunError msg)).
Proof.
  intros Hrc Herr msg. unfold msg. split; [|split; [|split]].
  - intros (args & -> & ->)%parse_calls Hrun. unfold mbind, M_bind.
    by rewrite (_run_command_nonzero _ _ _ out σ' err).
  - rewrite metadata_calls. intros [= <-]%(inj (app (calls s))) Hrun.
    rewrite metadata_unfold. cbv zeta.
    by rewrite (_run_command_nonzero _ _ _ out σ' err).
  - rewrite query_calls. intros [= <-]%(inj (app (calls s))) Hrun.
    rewrite query_unfold. cbv zeta.
    by rewrite (_run_command_nonzero _ _ _ out σ' err).
  - rewrite xic_calls. intros [= <-]%(inj (app (calls s))) Hrun.
    rewrite xic_unfold. cbv zeta.
    by rewrite (_run_command_nonzero _ _ _ out σ' err).
Qed.

(** X6: the launcher failing to find the command is caught at every
    call, not only at construction: each operation then raises
    [ThermoRawFileParserInstallationError] holding the
    [FileNotFoundError]. *)
Theorem missing_command_stops_operations input fmt options scans
    (q : json) (base64 : bool) s cmd d :
  let failed := ThermoRawFileParserInstallationError
                  (ArgExn (FileNotFoundError d)) in
  (calls (parse w input fmt options s).2 = calls s ++ [cmd] →
   subprocess_run w (fs s) cmd = NotFound d →
   (parse w input fmt options s).1 = Raise failed)
  ∧ (calls (metadata w input s).2 = calls s ++ [cmd] →
     subprocess_run w (fs s) cmd = NotFound d →
     (metadata w input s).1 = Raise failed)
  ∧ (calls (query w input scans options s).2 = calls s ++ [cmd] →
     subprocess_run w (fs s) cmd = NotFound d →
     (query w input scans options s).1 = Raise failed)
  ∧ (calls (xic w input q base64 s).2 = calls s ++ [cmd] →
     subprocess_run w
       (<[posixpath.join (mkdtemp w) "query.json" := json_dumps w q]> (fs s))
       cmd = NotFound d →
     (xic w input q base64 s).1 = Raise failed).
Proof.
  intros failed. unfold failed. split; [|split; [|split]].
  - intros (args & -> & ->)%parse_calls Hrun. unfold mbind, M_bind.
    by rewrite (_run_command_not_found _ _ _ _ d).
  - rewrite metadata_calls. intros [= <-]%(inj (app (calls s))) Hrun.
    rewrite metadata_unfold. cbv zeta.
    by rewrite (_run_command_not_found _ _ _ _ d).
  - rewrite query_calls. intros [= <-]%(inj (app (calls s))) Hrun.
    rewrite query_unfold. cbv zeta.
    by rewrite (_run_command_not_found _ _ _ _ d).
  - rewrite xic_calls. intros [= <-]%(inj (app (calls s))) Hrun.
    rewrite xic_unfold. cbv zeta.
    by rewrite (_run_command_not_found _ _ _ _ d).
Qed.

(** ** What the operations return *)

(** X7: when the tool exits with zero and has left JSON text in the
    output file, octets that are text in the encoding of the locale,
    [metadata] returns that text decoded.  Standard output plays no
    part. *)
Theorem metadata_returns_output_file input s cmd out σ' octets text j :
  calls (metadata w input s).2 = calls s ++ [cmd] →
  subprocess_run w (fs s) cmd = Exited out σ' →
  returncode out = 0 →
  σ' !! posixpath.join (mkdtemp w) "meta.json" = Some octets →
  locale_decode w octets = Some text →
  json_loads w text = Some j →
  (metadata w input s).1 = Ok j.
Proof.
  rewrite metadata_calls.
  intros [= <-]%(inj (app (calls s))) Hrun Hrc Hfile Htext Hjson.
  rewrite metadata_unfold. cbv zeta.
  rewrite (_run_command_zero w _ _ _ _ out σ') by done.
  cbn [fs with_fs]. by rewrite Hfile, Htext, Hjson.
Qed.

(** X8: when the tool exits with zero, [query] and [xic] return the JSON
    that standard output holds once decoded and stripped of the white
    space around it; output that is not UTF-8 ends in
    [UnicodeDecodeError] instead. *)
Theorem stdout_is_the_result input scans options (q : json) (base64 : bool)
    s cmd out σ' :
  returncode out = 0 →
  let answer :=
    match Py.decode (stdout out) with
    | None => Raise UnicodeDecodeError
    | Some text =>
        match json_loads w (Py.strip text) with
        | Some j => Ok j
        | None => Raise JSONDecodeError
        end
    end in
  (calls (query w input scans options s).2 = calls s ++ [cmd] →
   subprocess_run w (fs s) cmd = Exited out σ' →
   (query w input scans options s).1 = answer)
  ∧ (calls (xic w input q base64 s).2 = calls s ++ [cmd] →
     subprocess_run w
       (<[posixpath.join (mkdtemp w) "query.json" := json_dumps w q]> (fs s))
       cmd = Exited out σ' →
     (xic w input q base64 s).1 = answer).
Proof.
  intros Hrc answer. unfold answer. split.
  - rewrite query_calls. intros [= <-]%(inj (app (calls s))) Hrun.
    rewrite query_unfold. cbv zeta.
    rewrite (_run_command_zero w _ _ _ _ out σ') by done.
    rewrite json_loads_stdout_unfold.
    destruct (Py.decode (stdout out)) as [text|]; [|done].
    by destruct (json_loads w (Py.strip text)).
  - rewrite xic_calls. intros [= <-]%(inj (app (calls s))) Hrun.
    rewrite xic_unfold. cbv zeta.
    rewrite (_run_command_zero w _ _ _ _ out σ') by done.
    rewrite json_loads_stdout_unfold.
    destruct (Py.decode (stdout out)) as [text|]; [|done].
    by destruct (json_loads w (Py.strip text)).
Qed.

(** X9: [parse] reads nothing back.  When the tool exits with zero it
    returns [None], whatever bytes the tool printed, and the file system
    is as the tool left it. *)
Theorem parse_ignores_output input fmt options s cmd out σ' :
  calls (parse w input fmt options s).2 = calls s ++ [cmd] →
  subprocess_run w (fs s) cmd = Exited out σ' →
  returncode out = 0 →
  (parse w input fmt options s).1 = Ok tt
  ∧ fs (parse w input fmt options s).2 = σ'.
Proof.
  intros (args & -> & ->)%parse_calls Hrun Hrc. unfold mbind, M_bind.
  by rewrite (_run_command_zero w _ _ _ _ out σ').
Qed.

(** ** The state construction leaves *)

(** X15: construction launches one process and no more, the version
    probe, whether it then succeeds or fails.  The probe has no mounts:
    under an image it is [docker run], the image, the tokens of the
    template and [--version]; without one, the template and
    [--version]. *)
Theorem construction_launches_probe_once exe img σ :
  calls (__init__ w exe img σ).2 = [probe w exe img]
  ∧ probe w exe img
    = if truthy_str img
      then ["docker"; "run"; default "" img] ++ Py.split " " exe ++ ["--version"]
      else [exe; "--version"].
Proof.
  split.
  - unfold __init__. rewrite _validate_install_unfold.
    pose proof (_run_command_calls w ["--version"] None true
                  {| self := assigned exe img; fs := σ; calls := [] |}) as Hcalls.
    destruct (_run_command w _ _ _ _) as [[out|e] s']; simpl in Hcalls; [|done].
    destruct (negb (returncode out =? 0)).
    + by destruct (Py.decode (stderr out)).
    + destruct (Py.decode (stdout out)) as [text|]; [|done]. cbv zeta.
      by destruct (semver_match w (Py.strip text) _) as [[]|].
  - unfold probe, command. simpl. by destruct (truthy_str img).
Qed.

(** X16: [installed_version] is assigned exactly when the probe exited
    with zero and its output decoded, and then holds that output
    stripped, whatever the comparison says afterwards; on every other
    path it is still [None] when [__init__] is left. *)
Theorem installed_version_after_init exe img σ :
  installed_version (self (__init__ w exe img σ).2) =
  match subprocess_run w σ (probe w exe img) with
  | Exited out _ =>
      if returncode out =? 0 then Py.strip <$> Py.decode (stdout out) else None
  | _ => None
  end.
Proof.
  destruct (subprocess_run w σ (probe w exe img)) as [out σ'|d|d|] eqn:Hrun.
  - destruct (returncode out =? 0) eqn:Hrc.
    + apply Z.eqb_eq in Hrc.
      destruct (Py.decode (stdout out)) as [text|] eqn:Htext.
      * rewrite (__init___probe_ok w _ _ _ out σ' text) by done. cbv zeta.
        by destruct (semver_match w (Py.strip text) ">=1.3.3") as [[]|].
      * unfold __init__. rewrite _validate_install_unfold.
        rewrite (_run_command_zero w _ _ _ _ out σ') by done.
        by rewrite Hrc, Htext.
    + unfold __init__. rewrite _validate_install_unfold, _run_command_unfold.
      cbv zeta. unfold probe in Hrun. cbn [self fs]. rewrite Hrun, Hrc.
      cbn [andb negb]. by destruct (Py.decode (stderr out)).
  - unfold __init__. rewrite _validate_install_unfold, _run_command_unfold.
    cbv zeta. unfold probe in Hrun. cbn [self fs]. by rewrite Hrun.
  - unfold __init__. rewrite _validate_install_unfold, _run_command_unfold.
    cbv zeta. unfold probe in Hrun. cbn [self fs]. by rewrite Hrun.
  - unfold __init__. rewrite _validate_install_unfold, _run_command_unfold.
    cbv zeta. unfold probe in Hrun. cbn [self fs]. by rewrite Hrun.
Qed.

End Operations.

(** * Paths *)

(** ** Splitting and joining *)


Lemma split_not_nil sep s : Py.split sep s ≠ [].
Proof.
  destruct s as [|c s]; simpl; [done|].
  destruct (Py.ascii_eqb c sep); [done|]. by destruct (Py.split sep s).
Qed.

(** No field of a split holds the separator. *)
Lemma split_fields_no_sep sep s :
  Forall (λ f, Py.contains sep f = false) (Py.split sep s).
Proof.
  induction s as [|c s IH]; simpl; [by repeat constructor|].
  destruct (Py.ascii_eqb c sep) eqn:Hc; [by constructor|].
  destruct (Py.split sep s) as [|f fs];
    [constructor; [simpl; by rewrite Hc|constructor]|].
  inversion IH as [|? ? Hf Hfs]; subst. constructor; [|done].
  simpl. by rewrite Hc.
Qed.



(** Splitting and joining with the same separator gives the text back:
    the tokens of the executable template lose nothing. *)
Lemma join_split sep s : Py.join (String sep "") (Py.split sep s) = s.
Proof.
  induction s as [|c s IH]; simpl; [done|].
  destruct (Py.ascii_eqb c sep) eqn:Hc.
  - apply Ascii.eqb_eq in Hc as ->.
    pose proof (split_not_nil sep s) as Hne.
    destruct (Py.split sep s) as [|f fs] eqn:Hsplit; [done|].
    change (Py.join (String sep "") ("" :: f :: fs))
      with ("" +:+ String sep "" +:+ Py.join (String sep "") (f :: fs)).
    by rewrite IH.
  - pose proof (split_not_nil sep s) as Hne.
    destruct (Py.split sep s) as [|f fs] eqn:Hsplit; [done|].
    destruct fs as [|g fs].
    + simpl in *. by rewrite IH.
    + change (Py.join (String sep "") (String c f :: g :: fs))
        with (String c f +:+ String sep "" +:+ Py.join (String sep "") (g :: fs)).
      rewrite append_cons. f_equal. exact IH.
Qed.

(** ** [normpath] on absolute paths *)




Lemma startswith_slash_cons a x :
  Py.startswith "/" (String a x) = Py.ascii_eqb "/" a.
Proof. cbn [Py.startswith]. apply andb_true_r. Qed.




Lemma startswith_cons a p b s :
  Py.startswith (String a p) (String b s) = Py.ascii_eqb a b && Py.startswith p s.
Proof. reflexivity. Qed.






(** ** [dirname] of absolute paths *)

Lemma rev_app_append s t : String.rev_app s t = String.rev s +:+ t.
Proof.
  unfold String.rev. revert t.
  induction s as [|a s IH]; intros t; simpl; [done|].
  rewrite (IH (String a t)), (IH (String a "")).
  generalize (String.rev_app s "") as r. intros r.
  induction r as [|b r IHr]; [done|]. rewrite !append_cons. by f_equal.
Qed.

Lemma rev_cons a s : String.rev (String a s) = String.rev s +:+ String a "".
Proof. unfold String.rev at 1. simpl. apply rev_app_append. Qed.

Lemma rev_snoc s a : String.rev (s +:+ String a "") = String a (String.rev s).
Proof.
  induction s as [|b s IH]; [done|].
  rewrite append_cons, !rev_cons, IH. by rewrite append_cons.
Qed.

(** [s] is made of the character [c] alone. *)
Lemma drop_char_all c s :
  Py.drop_char c s = "" → s = Py.repeat_char c (String.length s).
Proof.
  induction s as [|a s IH]; simpl; [done|].
  destruct (Py.ascii_eqb a c) eqn:Ha; [|done].
  apply Ascii.eqb_eq in Ha as ->. intros Hs. f_equal. by apply IH.
Qed.

Lemma drop_char_repeat c n : Py.drop_char c (Py.repeat_char c n) = "".
Proof.
  induction n as [|n IH]; simpl; [done|].
  unfold Py.ascii_eqb. by rewrite Ascii.eqb_refl.
Qed.

Lemma repeat_char_snoc c n :
  Py.repeat_char c n +:+ String c "" = String c (Py.repeat_char c n).
Proof.
  induction n as [|n IH]; [done|]. simpl. rewrite append_cons. by f_equal.
Qed.

Lemma rev_repeat_char c n : String.rev (Py.repeat_char c n) = Py.repeat_char c n.
Proof.
  induction n as [|n IH]; [done|]. simpl. rewrite rev_cons, IH.
  apply repeat_char_snoc.
Qed.

Lemma length_rev s : String.length (String.rev s) = String.length s.
Proof.
  induction s as [|a s IH]; [done|]. rewrite rev_cons. simpl. rewrite <- IH.
  generalize (String.rev s) as r. intros r.
  induction r as [|b r IHr]; [done|]. rewrite append_cons. simpl. by f_equal.
Qed.

Lemma drop_char_snoc c x a :
  Py.drop_char c x ≠ "" →
  Py.drop_char c (x +:+ String a "") = Py.drop_char c x +:+ String a "".
Proof.
  induction x as [|b x IH]; [done|]. rewrite append_cons. simpl.
  destruct (Py.ascii_eqb b c); [exact IH|]. intros _. by rewrite append_cons.
Qed.

(** Stripping slashes from the end of text that starts with one and has
    something else in it leaves text that starts with one. *)
Lemma rstrip_char_keeps_head c h :
  String c h ≠ Py.repeat_char c (String.length (String c h)) →
  ∃ r, Py.rstrip_char c (String c h) = String c r.
Proof.
  intros Hnot. unfold Py.rstrip_char. rewrite rev_cons.
  assert (Py.drop_char c (String.rev h) ≠ "") as Hdrop.
  { intros Hall%drop_char_all. apply Hnot. simpl. f_equal.
    rewrite length_rev in Hall.
    rewrite <- (rev_repeat_char c (String.length h)), <- Hall.
    clear. induction h as [|a h IH]; [done|].
    rewrite rev_cons, rev_snoc. by f_equal. }
  rewrite drop_char_snoc by done. rewrite rev_snoc. by eexists.
Qed.

Lemma head_of_abs p :
  posixpath.isabs p = true → ∃ h, posixpath.head_of p = String posixpath.sep h.
Proof.
  destruct p as [|c p]; [done|].
  unfold posixpath.isabs. rewrite startswith_slash_cons.
  intros Hc. apply Ascii.eqb_eq in Hc as <-. simpl.
  destruct (Py.contains posixpath.sep p); by eexists.
Qed.

(** The directory of an absolute path is an absolute path. *)
Lemma dirname_isabs p :
  posixpath.isabs p = true → posixpath.isabs (posixpath.dirname p) = true.
Proof.
  intros (h & Hhead)%head_of_abs. unfold posixpath.dirname. rewrite Hhead.
  destruct (decide (String posixpath.sep h = "")); [done|].
  destruct (decide (String posixpath.sep h = _)) as [|Hnot]; [done|].
  by destruct (rstrip_char_keeps_head posixpath.sep h Hnot) as [r ->].
Qed.

(** * Further properties of the executor *)

Section Executor.
Context (w : World).

(** ** Mounts *)

(** X10: with a container image configured, every directory mounted is
    given by its absolute path, on the host side and in the container. *)
Theorem mounts_are_absolute options files check s img :
  posixpath.isabs (getcwd w) = true →
  docker_image (self s) = Some img →
  img ≠ "" →
  ∃ ds : list string,
    Forall (λ d, posixpath.isabs d = true) ds
    ∧ calls (_run_command w options files check s).2
      = calls s
        ++ [["docker"; "run"]
            ++ flat_map (λ d, ["-v"; d +:+ ":" +:+ d]) ds
            ++ [img]
            ++ Py.split " " (executable (self s))
            ++ options].
Proof.
  intros Hcwd Himg Hne.
  destruct (docker_args_mounts w files) as (ds & _ & Hds & Hargs).
  exists ds. split.
  - apply Forall_forall. intros d (f & _ & ->)%Hds.
    by apply dirname_isabs, abspath_isabs.
  - rewrite _run_command_calls. unfold command. rewrite Himg. simpl.
    destruct (decide (img = "")); [done|]. by rewrite Hargs.
Qed.



(** ** The direct command *)

(** X12: without a container image, and with an executable that is a
    single word, the command handed to the launcher is that word and the
    options, which is then also the template split into its tokens and
    the options. *)
Theorem direct_command_of_one_word options files check s :
  truthy_str (docker_image (self s)) = false →
  Py.contains " " (executable (self s)) = false →
  calls (_run_command w options files check s).2
  = calls s ++ [executable (self s) :: options]
  ∧ executable (self s) :: options
    = Py.split " " (executable (self s)) ++ options.
Proof.
  intros Himg Hword. rewrite _run_command_calls.
  rewrite command_direct by done. by rewrite split_one_word.
Qed.

(** X13: the tokens [_run_command] cuts the executable template into
    hold no space, there is at least one, and joined by single spaces
    they give the template back. *)
Theorem executable_tokens_round_trip (exe : string) :
  Py.split " " exe ≠ []
  ∧ Forall (λ token, Py.contains " " token = false) (Py.split " " exe)
  ∧ Py.join " " (Py.split " " exe) = exe.
Proof.
  split; [apply split_not_nil|]. split; [apply split_fields_no_sep|].
  apply join_split.
Qed.

(** ** Files *)

Lemma append_assoc a b c : (a +:+ b) +:+ c = a +:+ b +:+ c.
Proof. induction a as [|x a IH]; [done|]. rewrite !append_cons. by f_equal. Qed.

Lemma startswith_append a x : Py.startswith a (a +:+ x) = true.
Proof.
  induction a as [|c a IH]; [done|]. rewrite append_cons, startswith_cons, IH.
  unfold Py.ascii_eqb. by rewrite Ascii.eqb_refl.
Qed.

(** A file made in the temporary directory lies under it. *)
Lemma under_join dir name :
  dir ≠ "" →
  posixpath.endswith_sep dir = false →
  Py.startswith "/" name = false →
  under dir (posixpath.join dir name) = true.
Proof.
  intros Hdir Hsep Hname. unfold under, posixpath.join.
  rewrite Hname, Hsep. destruct (decide (dir = "")); [done|].
  rewrite <- append_assoc. apply startswith_append.
Qed.

Lemma _run_command_fs options files check s :
  (∀ σ cmd out σ', subprocess_run w σ cmd = Exited out σ' → σ' = σ) →
  fs (_run_command w options files check s).2 = fs s.
Proof.
  intros Hquiet. rewrite _run_command_unfold. cbv zeta.
  destruct (subprocess_run w (fs s) _) as [out σ'|d|d|] eqn:Hrun; [|done..].
  apply Hquiet in Hrun as ->.
  destruct (check && negb (returncode out =? 0)); [|done].
  by destruct (Py.decode (stderr out)).
Qed.

(** X14: the operations themselves write nowhere but in the temporary
    directory.  With a tool that leaves the file system as it finds it,
    [parse] and [query] leave it unchanged, and after [metadata] and
    [xic] every path outside the temporary directory holds what it held
    before. *)
Theorem operations_write_only_temporary_files input fmt options scans
    (q : json) (base64 : bool) s :
  (∀ σ cmd out σ', subprocess_run w σ cmd = Exited out σ' → σ' = σ) →
  mkdtemp w ≠ "" →
  posixpath.endswith_sep (mkdtemp w) = false →
  fs (parse w input fmt options s).2 = fs s
  ∧ fs (query w input scans options s).2 = fs s
  ∧ ∀ path,
      under (mkdtemp w) path = false →
      fs (metadata w input s).2 !! path = fs s !! path
      ∧ fs (xic w input q base64 s).2 !! path = fs s !! path.
Proof.
  intros Hquiet Hdir Hsep. split; [|split].
  - rewrite parse_unfold. cbv zeta.
    destruct (truthy_str fmt); [destruct (formats !! _) as [f|]; [|done]|];
      unfold mbind, M_bind;
      match goal with
      | |- context [_run_command w ?o ?f true s] =>
          pose proof (_run_command_fs o f true s Hquiet) as Hfs;
          by destruct (_run_command w o f true s) as [[out|e] s']
      end.
  - rewrite query_unfold. cbv zeta.
    match goal with
    | |- context [_run_command w ?o ?f true s] =>
        pose proof (_run_command_fs o f true s Hquiet) as Hfs;
        destruct (_run_command w o f true s) as [[out|e] s']
    end; [|done].
    by rewrite json_loads_stdout_state.
  - intros path Hpath. split.
    + rewrite metadata_unfold. cbv zeta.
      match goal with
      | |- context [_run_command w ?o ?f true s] =>
          pose proof (_run_command_fs o f true s Hquiet) as Hfs;
          destruct (_run_command w o f true s) as [[out|e] s']
      end; cbn [snd] in Hfs.
      * destruct (fs s' !! posixpath.join _ _) as [octets|];
          [destruct (locale_decode w octets) as [text|];
           [destruct (json_loads w text)|]|];
          cbn [snd]; by rewrite sweep_lookup, Hpath, Hfs.
      * cbn [snd]. by rewrite sweep_lookup, Hpath, Hfs.
    + assert (path ≠ posixpath.join (mkdtemp w) "query.json") as Hne.
      { intros ->. by rewrite under_join in Hpath. }
      rewrite xic_unfold. cbv zeta.
      match goal with
      | |- context [_run_command w ?o ?f true ?s0] =>
          pose proof (_run_command_fs o f true s0 Hquiet) as Hfs;
          destruct (_run_command w o f true s0) as [[out|e] s']
      end; cbn [snd fs with_fs] in Hfs.
      * rewrite json_loads_stdout_state, sweep_lookup, Hpath, Hfs.
        by rewrite lookup_insert_ne.
      * cbn [snd]. rewrite sweep_lookup, Hpath, Hfs.
        by rewrite lookup_insert_ne.
Qed.

(** ** The directory that holds a path *)

















End Executor.

(** * Concrete runs of the further properties *)

(** X1, at the output file of [metadata] and the query file of [xic],
    with a tool that writes the one and finds the other. *)
Lemma temporary_files_are_removed_witness :
  let s := Demo.installed "thermorawfileparser" None in
  fs (metadata (Demo.writes "{}") "run1.raw" s).2 !! "/tmp/tmpk3v9/meta.json" = None
  ∧ fs (xic (Demo.writes "{}") "run1.raw" (JArray []) false s).2
    !! "/tmp/tmpk3v9/meta.json" = None.
Proof.
  intros s.
  apply (temporary_files_are_removed (Demo.writes "{}") "run1.raw" (JArray [])
           false s "/tmp/tmpk3v9/meta.json").
  reflexivity.
Defined.

(** X3, at a tool that reports version 1.4.0. *)
Lemma constructed_object_passed_gate_witness :
  ∃ out σ' text,
    subprocess_run (Demo.exits 0 ("1.4.0" +:+ Py.nl) "") ∅
      (probe (Demo.exits 0 ("1.4.0" +:+ Py.nl) "") "thermorawfileparser" None)
    = Exited out σ'
    ∧ returncode out = 0
    ∧ Py.decode (stdout out) = Some text
    ∧ Demo.semver_ge (Py.strip text) ">=1.3.3" = Some true
    ∧ {| executable := "thermorawfileparser";
         docker_image := None;
         version_requirement := ">=1.3.3";
         installed_version := Some "1.4.0" |}
      = {| executable := "thermorawfileparser";
           docker_image := None;
           version_requirement := ">=1.3.3";
           installed_version := Some (Py.strip text) |}.
Proof.
  apply (constructed_object_passed_gate (Demo.exits 0 ("1.4.0" +:+ Py.nl) "")
           "thermorawfileparser" None ∅).
  reflexivity.
Defined.

(** X4, at a tool that reports version 1.2.0, and at an executable with
    a NUL character in its name, which the launcher turns down. *)
Lemma construction_failure_causes_witness :
  (∃ out σ' text,
     subprocess_run (Demo.exits 0 "1.2.0" "") ∅
       (probe (Demo.exits 0 "1.2.0" "") "thermorawfileparser" None)
     = Exited out σ'
     ∧ returncode out = 0
     ∧ Py.decode (stdout out) = Some text
     ∧ Demo.semver_ge (Py.strip text) ">=1.3.3" = Some false
     ∧ "Installed version 1.2.0 does not match requirement >=1.3.3"
       = "Installed version " +:+ Py.strip text
         +:+ " does not match requirement >=1.3.3")
  ∧ new (Demo.guarded 0 "1.3.3" "") ("thermo" +:+ Py.chr 0 +:+ "parser") None ∅
    = Raise ValueError
  ∧ (subprocess_run (Demo.guarded 0 "1.3.3" "") ∅
       (probe (Demo.guarded 0 "1.3.3" "")
          ("thermo" +:+ Py.chr 0 +:+ "parser") None)
     = LaunchRefused
     ∨ ∃ out σ' text,
         subprocess_run (Demo.guarded 0 "1.3.3" "") ∅
           (probe (Demo.guarded 0 "1.3.3" "")
              ("thermo" +:+ Py.chr 0 +:+ "parser") None)
         = Exited out σ'
         ∧ returncode out = 0
         ∧ Py.decode (stdout out) = Some text
         ∧ Demo.semver_ge (Py.strip text) ">=1.3.3" = None).
Proof.
  split; [|split; [reflexivity|]].
  - apply (construction_failure_causes (Demo.exits 0 "1.2.0" "")
             "thermorawfileparser" None ∅
             (ThermoRawFileParserInstallationError
                (ArgStr "Installed version 1.2.0 does not match requirement >=1.3.3"))).
    reflexivity.
  - apply (construction_failure_causes (Demo.guarded 0 "1.3.3" "")
             ("thermo" +:+ Py.chr 0 +:+ "parser") None ∅ ValueError).
    reflexivity.
Defined.

(** X5, at a tool that exits with 2 and writes [no such scan]. *)
Lemma nonzero_exit_stops_operations_witness :
  let w := Demo.exits 2 "[]" "no such scan" in
  let s := Demo.installed "thermorawfileparser" None in
  (metadata w "run1.raw" s).1
  = Raise (ThermoRawFileParserRunError
             ("Error running command "
              +:+ "['thermorawfileparser', '-i', '/home/user/run1.raw', '-c', "
              +:+ "'/tmp/tmpk3v9/meta.json', '-m', '0']:"
              +:+ Py.nl +:+ "no such scan"))
  ∧ (query w "run1.raw" "508,680" None s).1
    = Raise (ThermoRawFileParserRunError
               ("Error running command "
                +:+ "['thermorawfileparser', 'query', '-i', '/home/user/run1.raw', "
                +:+ "'-n', '508,680', '-s']:"
                +:+ Py.nl +:+ "no such scan")).
Proof.
  intros w s. split.
  - apply (nonzero_exit_stops_operations w "run1.raw" None None "508,680"
             (JArray []) false s
             ["thermorawfileparser"; "-i"; "/home/user/run1.raw"; "-c";
              "/tmp/tmpk3v9/meta.json"; "-m"; "0"]
             {| returncode := 2; stdout := "[]"; stderr := "no such scan" |} ∅
             "no such scan"); [discriminate|reflexivity..].
  - apply (nonzero_exit_stops_operations w "run1.raw" None None "508,680"
             (JArray []) false s
             ["thermorawfileparser"; "query"; "-i"; "/home/user/run1.raw";
              "-n"; "508,680"; "-s"]
             {| returncode := 2; stdout := "[]"; stderr := "no such scan" |} ∅
             "no such scan"); [discriminate|reflexivity..].
Defined.

(** X6, on a host without the program. *)
Lemma missing_command_stops_operations_witness :
  let s := Demo.installed "thermorawfileparser" None in
  (parse Demo.missing "run1.raw" (Some "mgf") None s).1
  = Raise (ThermoRawFileParserInstallationError
             (ArgExn (FileNotFoundError
                "[Errno 2] No such file or directory: 'thermorawfileparser'")))
  ∧ (xic Demo.missing "run1.raw" (JArray []) true s).1
    = Raise (ThermoRawFileParserInstallationError
               (ArgExn (FileNotFoundError
                  "[Errno 2] No such file or directory: 'thermorawfileparser'"))).
Proof.
  intros s. split.
  - apply (missing_command_stops_operations Demo.missing "run1.raw" (Some "mgf")
             None "508,680" (JArray []) true s
             ["thermorawfileparser"; "-i"; "/home/user/run1.raw"; "-f"; "0"]);
      reflexivity.
  - apply (missing_command_stops_operations Demo.missing "run1.raw" (Some "mgf")
             None "508,680" (JArray []) true s
             ["thermorawfileparser"; "xic"; "-i"; "/home/user/run1.raw"; "-j";
              "/tmp/tmpk3v9/query.json"; "-s"; "--base64"]);
      reflexivity.
Defined.

(** X7, at a tool that writes an empty object. *)
Lemma metadata_returns_output_file_witness :
  (metadata (Demo.writes "{}") "run1.raw"
     (Demo.installed "thermorawfileparser" None)).1 = Ok (JObject []).
Proof.
  apply (metadata_returns_output_file (Demo.writes "{}") "run1.raw"
           (Demo.installed "thermorawfileparser" None)
           ["thermorawfileparser"; "-i"; "/home/user/run1.raw"; "-c";
            "/tmp/tmpk3v9/meta.json"; "-m"; "0"]
           {| returncode := 0; stdout := ""; stderr := "" |}
           (<["/tmp/tmpk3v9/meta.json" := "{}"]> ∅) "{}" "{}" (JObject []));
    reflexivity.
Defined.

(** X8, at a tool that prints an empty list with white space around it. *)
Lemma stdout_is_the_result_witness :
  let w := Demo.exits 0 (" []" +:+ Py.nl) "" in
  let s := Demo.installed "thermorawfileparser" None in
  (query w "run1.raw" "508,680" None s).1 = Ok (JArray [])
  ∧ (xic w "run1.raw" (JArray []) false s).1 = Ok (JArray []).
Proof.
  intros w s.
  split.
  - destruct (stdout_is_the_result w "run1.raw" "508,680" None (JArray []) false s
                ["thermorawfileparser"; "query"; "-i"; "/home/user/run1.raw";
                 "-n"; "508,680"; "-s"]
                {| returncode := 0; stdout := " []" +:+ Py.nl; stderr := "" |} ∅
                eq_refl) as [Hquery _].
    apply Hquery; reflexivity.
  - destruct (stdout_is_the_result w "run1.raw" "508,680" None (JArray []) false s
                ["thermorawfileparser"; "xic"; "-i"; "/home/user/run1.raw"; "-j";
                 "/tmp/tmpk3v9/query.json"; "-s"]
                {| returncode := 0; stdout := " []" +:+ Py.nl; stderr := "" |}
                (<["/tmp/tmpk3v9/query.json" := "[]"]> ∅)
                eq_refl) as [_ Hxic].
    apply Hxic; reflexivity.
Defined.

(** X9, at a tool that prints a byte that is not UTF-8. *)
Lemma parse_ignores_output_witness :
  let w := Demo.exits 0 (Py.chr 255) "" in
  let s := Demo.installed "thermorawfileparser" None in
  (parse w "run1.raw" (Some "mzml") None s).1 = Ok tt
  ∧ fs (parse w "run1.raw" (Some "mzml") None s).2 = ∅.
Proof.
  intros w s.
  apply (parse_ignores_output w "run1.raw" (Some "mzml") None s
           ["thermorawfileparser"; "-i"; "/home/user/run1.raw"; "-f"; "1"]
           {| returncode := 0; stdout := Py.chr 255; stderr := "" |} ∅);
    reflexivity.
Defined.

(** X10, at two relative files in different directories. *)
Lemma mounts_are_absolute_witness :
  let s := Demo.installed "thermorawfileparser" (Some "trfp:1.3.3") in
  ∃ ds : list string,
    Forall (λ d, posixpath.isabs d = true) ds
    ∧ calls (_run_command (Demo.exits 0 "" "") ["-i"; "a.raw"]
               (Some ["a.raw"; "../b/c.json"]) true s).2
      = [["docker"; "run"]
         ++ flat_map (λ d, ["-v"; d +:+ ":" +:+ d]) ds
         ++ ["trfp:1.3.3"]
         ++ ["thermorawfileparser"]
         ++ ["-i"; "a.raw"]].
Proof.
  intros s.
  apply (mounts_are_absolute (Demo.exits 0 "" "") ["-i"; "a.raw"]
           (Some ["a.raw"; "../b/c.json"]) true s "trfp:1.3.3").
  - reflexivity.
  - reflexivity.
  - discriminate.
Defined.


(** X12, at the default executable. *)
Lemma direct_command_of_one_word_witness :
  let s := Demo.installed "thermorawfileparser" None in
  calls (_run_command (Demo.exits 0 "" "") ["--version"] None true s).2
  = [["thermorawfileparser"; "--version"]]
  ∧ ["thermorawfileparser"; "--version"]
    = Py.split " " "thermorawfileparser" ++ ["--version"].
Proof.
  intros s.
  apply (direct_command_of_one_word (Demo.exits 0 "" "") ["--version"] None
           true s); reflexivity.
Defined.

(** X14, at a file of the user's beside the temporary directory. *)
Lemma operations_write_only_temporary_files_witness :
  let w := Demo.exits 0 "[]" "" in
  let s := {| self := self (Demo.installed "thermorawfileparser" None);
              fs := <["/home/user/notes.txt" := "keep"]> ∅;
              calls := [] |} in
  fs (parse w "run1.raw" None None s).2 = fs s
  ∧ fs (query w "run1.raw" "508,680" None s).2 = fs s
  ∧ fs (metadata w "run1.raw" s).2 !! "/home/user/notes.txt" = Some "keep"
  ∧ fs (xic w "run1.raw" (JArray []) false s).2 !! "/home/user/notes.txt"
    = Some "keep".
Proof.
  intros w s.
  destruct (operations_write_only_temporary_files w "run1.raw" None None
              "508,680" (JArray []) false s) as (Hparse & Hquery & Hrest).
  - intros σ cmd out σ' Hrun. by injection Hrun.
  - discriminate.
  - reflexivity.
  - split; [exact Hparse|]. split; [exact Hquery|].
    apply (Hrest "/home/user/notes.txt"). reflexivity.
Defined.

